(** * Collector and extractor subtasks of incubator-devlake

    A shallow embedding of the plugin subtasks

    - [plugins/tapd/tasks/worklog_collector.go]   ([CollectWorklogs]),
    - [plugins/github_graphql/tasks/pr_collector.go] ([CollectPr]),
    - the Opsgenie team extractor ([ExtractTeams]),

    together with the parts of the shared [helper] engine they call.  The
    engine itself is not among the sources; where a subtask depends on it,
    the engine is modelled from the design document and marked as such.

    Conventions.  A Go function that may crash at run time (nil dereference,
    index out of range) returns an [Outcome]; a Go [(value, error)] pair is a
    Rocq pair whose second component is an [option error]; a [*T] pointer that
    the code tests against [nil] is an [option T]. *)

From Stdlib Require Import ZArith Lia Ascii String.
From stdpp Require Import base option list strings gmap pretty.

Open Scope Z_scope.

(** ** The Go runtime and standard library, as far as the subtasks use it *)

Module Go.

(** [errors.Error].  The engine's sentinel [helper.ErrFinishCollect] is the
    only error value the subtasks compare against; every other error is
    carried by its message. *)
Inductive error : Type :=
  | ErrFinishCollect
  | ErrOther (msg : string).

#[global] Instance error_eq_dec : EqDecision error.
Proof. solve_decision. Defined.

(** What running a piece of Go code yields: a run-time panic, or the values
    it returns. *)
Inductive Outcome (A : Type) : Type :=
  | Panic
  | Return (a : A).
Arguments Panic {A}.
Arguments Return {A} a.

(** Straight-line code that leaves early on [err != nil]: besides a panic it
    either fails with the error or carries on with a value. *)
Inductive Exec (A : Type) : Type :=
  | Panicked
  | Failed (e : error)
  | Done (a : A).
Arguments Panicked {A}.
Arguments Failed {A} e.
Arguments Done {A} a.

Definition bind {A B : Type} (m : Exec A) (k : A -> Exec B) : Exec B :=
  match m with
  | Panicked => Panicked
  | Failed e => Failed e
  | Done a => k a
  end.

(** [v, err := f(...); if err != nil { return nil, err }] *)
Definition check {A : Type} (r : A * option error) : Exec A :=
  match r with
  | (_, Some e) => Failed e
  | (a, None) => Done a
  end.

(** [time.Time]: an instant, counted in seconds from the Unix epoch.  The
    sub-second part plays no role in the subtasks. *)
Definition Time : Type := Z.

(** [t.Before(u)] *)
Definition Before (t u : Time) : bool := t <? u.

(** [*time.Location], as a fixed offset in seconds east of UTC. *)
Record Location : Type := FixedZone { offset : Z }.

(** Civil date of a day number counted from 1970-01-01 (proleptic
    Gregorian calendar). *)
Definition civil_from_days (z : Z) : Z * Z * Z :=
  let z := z + 719468 in
  let era := z / 146097 in
  let doe := z - era * 146097 in
  let yoe := (doe - doe / 1460 + doe / 36524 - doe / 146096) / 365 in
  let doy := doe - (365 * yoe + yoe / 4 - yoe / 100) in
  let mp := (5 * doy + 2) / 153 in
  let d := doy - (153 * mp + 2) / 5 + 1 in
  let m := if mp <? 10 then mp + 3 else mp - 9 in
  let y := yoe + era * 400 + (if m <=? 2 then 1 else 0) in
  (y, m, d).

(** Decimal digits of [n], left-padded with zeros to [width]; a negative
    number keeps its sign in front. *)
Definition zero_pad (width : nat) (n : Z) : string :=
  let digits := pretty (Z.abs n) in
  let padded :=
    String.concat "" (replicate (width - String.length digits)%nat "0")
      +:+ digits in
  if n <? 0 then "-" +:+ padded else padded.

(** [t.In(loc).Format("2006-01-02")] *)
Definition Format_date (t : Time) (loc : Location) : string :=
  let '(y, m, d) := civil_from_days ((t + offset loc) / 86400) in
  zero_pad 4 y +:+ "-" +:+ zero_pad 2 m +:+ "-" +:+ zero_pad 2 d.

(** [fmt.Sprintf("%v", n)] for an integer [n]. *)
Definition Sprintf_v (n : Z) : string := pretty n.

(** [url.Values]: a map from keys to lists of values. *)
Definition Values_Set (query : gmap string (list string)) (key value : string)
  : gmap string (list string) :=
  <[key := [value]]> query.

(** [strings.Split(s, sep)] for a separator of one byte: the pieces of [s]
    between the occurrences of [sep], always at least one piece. *)
Fixpoint Split (s : string) (sep : ascii) : list string :=
  match s with
  | EmptyString => [EmptyString]
  | String c rest =>
      if decide (c = sep) then EmptyString :: Split rest sep
      else match Split rest sep with
           | [] => [String c EmptyString]
           | piece :: pieces => String c piece :: pieces
           end
  end.

(** [xs[i]]: indexing a slice panics out of range. *)
Definition index {A : Type} (xs : list A) (i : nat) : Outcome A :=
  match xs !! i with
  | Some x => Return x
  | None => Panic
  end.

(** Conversion to [int32] ([graphql.Int]): wrap-around on 32 bits. *)
Definition to_int32 (n : Z) : Z :=
  (n + 2147483648) mod 4294967296 - 2147483648.

End Go.

Import Go.

#[global] Instance Exec_bind : MBind Exec := fun A B k m => bind m k.

(** A panic inside straight-line code. *)
Definition run {A : Type} (o : Outcome A) : Exec A :=
  match o with
  | Panic => Panicked
  | Return a => Done a
  end.

(** ** The shared engine ([plugins/helper]) *)

Module helper.

(** [helper.Pager] of the REST collector. *)
Record Pager : Type := { Page : Z; Skip : Z; Size : Z }.

(** [helper.RequestData] *)
Record RequestData : Type := { RequestData_Pager : Pager }.

(** A collection identity: the raw table and the rendered parameters. *)
Abbreviation Identity := (string * string)%type.

(** [helper.RawDataSubTaskArgs] *)
Record RawDataSubTaskArgs : Type := { Table : string; Params : string }.

Definition identity (args : RawDataSubTaskArgs) : Identity :=
  (Table args, Params args).

(** [models.CollectorLatestState]: the incremental state of one collection
    identity.  [LatestSuccessStart] is [nil] until a run has succeeded. *)
Record CollectorLatestState : Type :=
  { LatestSuccessStart : option Time }.

(** [helper.ApiCollectorStateManager] *)
Record ApiCollectorStateManager : Type :=
  { Args : RawDataSubTaskArgs;
    LatestState : CollectorLatestState;
    CreatedDateAfter : option Time;
    ExecuteStart : Time;
    OptIn : bool }.

(** [helper.ApiCollectorArgs], with the hooks a subtask supplies.  A page's
    response body and the raw messages parsed from it are byte strings. *)
Record ApiCollectorArgs : Type :=
  { Incremental : bool;
    PageSize : Z;
    UrlTemplate : string;
    Query : RequestData -> Outcome (gmap string (list string) * option error);
    ResponseParser : string -> list string * option error }.

(** What the remote source answers to one page request: a response body,
    or a failure that is permanent or has outlived its retries. *)
Inductive PageFetch : Type :=
  | Fetched (body : string)
  | FetchFailed (e : error).

(** What the environment of one collection run holds: the state tracker's
    table, the failures the database and the argument validation may
    raise, the remote's answers to the successive page requests, and the
    clock when the run starts. *)
Record CollectorEnv : Type :=
  { states : gmap Identity CollectorLatestState;
    loadError : option error;
    initError : option error;
    answers : list PageFetch;
    commitError : option error;
    now : Time;
    incrementalRequested : bool }.

(** Modelled from the spec: the engine's reading of a page parser's error
    value, missing from the sources (design notes: the early-finish signal
    is a distinguished error value, to be read as one of
    [Continue | EarlyFinish | Fatal(error)]). *)
Inductive PageSignal : Type :=
  | Continue
  | EarlyFinish
  | Fatal (e : error).

Definition pageSignal (err : option error) : PageSignal :=
  match err with
  | None => Continue
  | Some ErrFinishCollect => EarlyFinish
  | Some e => Fatal e
  end.

(** Modelled from the spec: [helper.NewApiCollectorWithState], missing from
    the sources (state tracker, [load(identity)]: an absent state means a
    first run; the run's start time is taken when the collector is
    created). *)
Definition NewApiCollectorWithState (env : CollectorEnv)
    (args : RawDataSubTaskArgs) (createdDateAfter : option Time)
  : ApiCollectorStateManager * option error :=
  ({| Args := args;
      LatestState :=
        default {| LatestSuccessStart := None |} (states env !! identity args);
      CreatedDateAfter := createdDateAfter;
      ExecuteStart := now env;
      OptIn := incrementalRequested env |},
   loadError env).

(** Modelled from the spec: [IsIncremental], missing from the sources
    (collector state: true when a prior successful run exists and the
    caller opts into incremental mode). *)
Definition IsIncremental (m : ApiCollectorStateManager) : bool :=
  bool_decide (is_Some (LatestSuccessStart (LatestState m))) && OptIn m.

(** Modelled from the spec: the page loop of the REST collector, missing
    from the sources (collector engine, steps 2 to 4, with the offset
    pagination driver).  Pages are requested one after the other: the
    worker pool, the rate limiter and the retries are not represented.  The
    page number grows by one per request; a page shorter than the page size
    is the last; an early-finish signal stops the scheduling of further
    pages and is a success; a failed fetch or parse aborts the run. *)
Fixpoint collectPages (args : ApiCollectorArgs) (page : Z)
    (answers : list PageFetch) (staged : list string) : Exec (list string) :=
  match answers with
  | [] => Done staged
  | answer :: answers =>
      let reqData :=
        {| RequestData_Pager :=
             {| Page := page;
                Skip := (page - 1) * PageSize args;
                Size := PageSize args |} |} in
      _ ← (r ← run (Query args reqData); check r);
      match answer with
      | FetchFailed e => Failed e
      | Fetched body =>
          let '(items, err) := ResponseParser args body in
          match pageSignal err with
          | Fatal e => Failed e
          | EarlyFinish => Done (staged ++ items)
          | Continue =>
              if bool_decide (Z.of_nat (length items) < PageSize args)
              then Done (staged ++ items)
              else collectPages args (page + 1) answers (staged ++ items)
          end
      end
  end.

(** Modelled from the spec: [ApiCollectorStateManager.Execute], missing
    from the sources (collector engine, step 5, and the state tracker's
    [commit(identity, runStartTime)], called only after a run fully
    succeeds; a failure to persist the state fails the run).  The result is
    the run's error, the state tracker's table after the run, and the raw
    messages staged. *)
Definition Execute (m : ApiCollectorStateManager) (args : ApiCollectorArgs)
    (env : CollectorEnv)
  : Outcome (option error * gmap Identity CollectorLatestState * list string) :=
  match collectPages args 1 (answers env) [] with
  | Panicked => Panic
  | Failed e => Return (Some e, states env, [])
  | Done staged =>
      match commitError env with
      | Some e => Return (Some e, states env, staged)
      | None =>
          Return
            (None,
             <[identity (Args m) :=
                 {| LatestSuccessStart := Some (ExecuteStart m) |}]>
               (states env),
             staged)
      end
  end.

(** [api.RawData]: one row of the raw staging table. *)
Record RawData : Type := { ID : Z; Data : string }.

(** The two tables an extraction reads and writes. *)
Record ExtractorStore (Typed : Type) : Type :=
  { rawRecords : gmap Identity (list RawData);
    typedRecords : gmap Identity (list Typed) }.
Arguments rawRecords {Typed} _.
Arguments typedRecords {Typed} _.

(** [api.ApiExtractorArgs] *)
Record ApiExtractorArgs (Typed : Type) : Type :=
  { ExtractorArgs : RawDataSubTaskArgs;
    Extract : RawData -> Outcome (list Typed * option error) }.
Arguments ExtractorArgs {Typed} _.
Arguments Extract {Typed} _.

(** Modelled from the spec: the row loop of [ApiExtractor.Execute], missing
    from the sources (extractor engine: stream every raw record in
    insertion order, apply the transform to each, accumulate the fan-out,
    abort on the first transform error). *)
Fixpoint extractRows {Typed : Type}
    (transform : RawData -> Outcome (list Typed * option error))
    (rows : list RawData) (produced : list Typed) : Exec (list Typed) :=
  match rows with
  | [] => Done produced
  | row :: rows =>
      results ← (r ← run (transform row); check r);
      extractRows transform rows (produced ++ results)
  end.

(** Modelled from the spec: [ApiExtractor.Execute], missing from the
    sources (extractor engine: all-or-nothing per identity; on success the
    identity's typed output is replaced by the newly produced set). *)
Definition ExtractorExecute {Typed : Type} (args : ApiExtractorArgs Typed)
    (store : ExtractorStore Typed)
  : Outcome (option error * ExtractorStore Typed) :=
  let id := identity (ExtractorArgs args) in
  let rows := default [] (rawRecords store !! id) in
  match extractRows (Extract args) rows [] with
  | Panicked => Panic
  | Failed e => Return (Some e, store)
  | Done produced =>
      Return
        (None,
         {| rawRecords := rawRecords store;
            typedRecords := <[id := produced]> (typedRecords store) |})
  end.

End helper.

(** ** [plugins/tapd/tasks/worklog_collector.go] *)

Module tapd.

Record TapdOptions : Type := { WorkspaceId : Z; CstZone : Location }.

Record TapdTaskData : Type :=
  { Options : TapdOptions; CreatedDateAfter : option Time }.

Definition RAW_WORKLOG_TABLE : string := "tapd_api_worklogs".

(** [fmt.Sprintf(">%s", t.In(data.Options.CstZone).Format("2006-01-02"))] *)
Definition createdAfter (data : TapdTaskData) (t : Time) : string :=
  ">" +:+ Format_date t (CstZone (Options data)).

(** The [Query] closure of [CollectWorklogs].  It captures [data], the flag
    [incremental] and [collectorWithState].  Dereferencing
    [LatestState.LatestSuccessStart] panics when the pointer is [nil]. *)
Definition Query (data : TapdTaskData) (incremental : bool)
    (collectorWithState : helper.ApiCollectorStateManager)
    (reqData : helper.RequestData)
  : Outcome (gmap string (list string) * option error) :=
  let query : gmap string (list string) := ∅ in
  let query :=
    Values_Set query "workspace_id" (Sprintf_v (WorkspaceId (Options data))) in
  let query :=
    Values_Set query "page"
      (Sprintf_v (helper.Page (helper.RequestData_Pager reqData))) in
  let query :=
    Values_Set query "limit"
      (Sprintf_v (helper.Size (helper.RequestData_Pager reqData))) in
  let query := Values_Set query "order" "created asc" in
  let query :=
    match CreatedDateAfter data with
    | Some t => Values_Set query "created" (createdAfter data t)
    | None => query
    end in
  if incremental then
    match helper.LatestSuccessStart (helper.LatestState collectorWithState) with
    | Some t => Return (Values_Set query "created" (createdAfter data t), None)
    | None => Panic
    end
  else Return (query, None).

(** [CollectWorklogs].  [CreateRawDataSubTaskArgs] and
    [GetRawMessageArrayFromResponse] are declared in another file of the
    package and are left open; [InitCollector] fails when the environment
    says so; logging is not represented.  The result is the subtask's error, the state tracker's table afterwards and the raw
    messages staged. *)
Section CollectWorklogs.

Variable CreateRawDataSubTaskArgs :
  TapdTaskData -> string -> bool -> helper.RawDataSubTaskArgs * TapdTaskData.
Variable GetRawMessageArrayFromResponse : string -> list string * option error.

Definition CollectWorklogs (taskCtx : TapdTaskData) (env : helper.CollectorEnv)
  : Outcome
      (option error * gmap helper.Identity helper.CollectorLatestState
       * list string) :=
  let '(rawDataSubTaskArgs, data) :=
    CreateRawDataSubTaskArgs taskCtx RAW_WORKLOG_TABLE false in
  let '(collectorWithState, err) :=
    helper.NewApiCollectorWithState env rawDataSubTaskArgs
      (CreatedDateAfter data) in
  match err with
  | Some e => Return (Some e, helper.states env, [])
  | None =>
      let incremental := helper.IsIncremental collectorWithState in
      let args : helper.ApiCollectorArgs :=
        {| helper.Incremental := incremental;
           helper.PageSize := 100;
           helper.UrlTemplate := "timesheets";
           helper.Query := Query data incremental collectorWithState;
           helper.ResponseParser := GetRawMessageArrayFromResponse |} in
      match helper.initError env with
      | Some e => Return (Some e, helper.states env, [])
      | None => helper.Execute collectorWithState args env
      end
  end.

End CollectWorklogs.

End tapd.

(** ** [plugins/github_graphql/tasks/pr_collector.go] *)

Module github_graphql.

Definition RAW_PRS_TABLE : string := "github_graphql_prs".

(** [helper.GraphqlQueryPageInfo] *)
Module GraphqlQueryPageInfo.
Record t : Type := { EndCursor : string; HasNextPage : bool }.
End GraphqlQueryPageInfo.

(** [helper.CursorPager] and [helper.GraphqlRequestData] *)
Module CursorPager.
Record t : Type := { SkipCursor : option string; Size : Z }.
End CursorPager.

Module GraphqlRequestData.
Record t : Type := { Pager : CursorPager.t }.
End GraphqlRequestData.

(** [GraphqlInlineAccountQuery], declared beside the account collector; the
    PR collector reads its [Login] and [Id]. *)
Module GraphqlInlineAccountQuery.
Record t : Type := { Login : string; Id : Z }.
End GraphqlInlineAccountQuery.

(** One element of [GraphqlQueryPr.Labels.Nodes]. *)
Module LabelNode.
Record t : Type := { Id : string; Name : string }.
End LabelNode.

Module GraphqlQueryReview.
Record t : Type :=
  { Body : string;
    Author : option GraphqlInlineAccountQuery.t;
    State : string;
    DatabaseId : Z;
    Commit_Oid : string;
    SubmittedAt : option Time }.
End GraphqlQueryReview.

Module GraphqlQueryCommit.
Record t : Type :=
  { Commit_Oid : string;
    Commit_Message : string;
    Commit_Author_Name : string;
    Commit_Author_Email : string;
    Commit_Author_Date : Time;
    Commit_Author_User : option GraphqlInlineAccountQuery.t;
    Commit_Committer_Date : Time;
    Commit_Committer_Email : string;
    Commit_Committer_Name : string;
    Url : string }.
End GraphqlQueryCommit.

Module GraphqlQueryPr.
Record t : Type :=
  { DatabaseId : Z;
    Number : Z;
    State : string;
    Title : string;
    Body : string;
    Url : string;
    Labels_Nodes : list LabelNode.t;
    Author : option GraphqlInlineAccountQuery.t;
    Assignees_Assignees : list GraphqlInlineAccountQuery.t;
    ClosedAt : option Time;
    MergedAt : option Time;
    UpdatedAt : Time;
    CreatedAt : Time;
    MergeCommit : option string;
    HeadRefName : string;
    HeadRefOid : string;
    BaseRefName : string;
    BaseRefOid : string;
    Commits_Nodes : list GraphqlQueryCommit.t;
    Reviews_Nodes : list GraphqlQueryReview.t }.
End GraphqlQueryPr.

Module GraphqlQueryPrWrapper.
Record t : Type :=
  { RateLimit_Cost : Z;
    PageInfo : option GraphqlQueryPageInfo.t;
    Prs : list GraphqlQueryPr.t;
    TotalCount : Z }.

(** [&GraphqlQueryPrWrapper{}] *)
Definition zero : t :=
  {| RateLimit_Cost := 0; PageInfo := None; Prs := []; TotalCount := 0 |}.
End GraphqlQueryPrWrapper.

(** The tool-layer records of [plugins/github/models] that the parser
    fills, with the fields it assigns. *)
Module GithubPrLabel.
Record t : Type := { ConnectionId : Z; PullId : Z; LabelName : string }.
End GithubPrLabel.

Module GithubPullRequest.
Record t : Type :=
  { ConnectionId : Z;
    GithubId : Z;
    RepoId : Z;
    Number : Z;
    State : string;
    Title : string;
    Url : string;
    GithubCreatedAt : Time;
    GithubUpdatedAt : Time;
    ClosedAt : option Time;
    MergedAt : option Time;
    Body : string;
    BaseRef : string;
    BaseCommitSha : string;
    HeadRef : string;
    HeadCommitSha : string;
    MergeCommitSha : string;
    AuthorName : string;
    AuthorId : Z;
    Type_ : string;
    Component : string }.

(** [githubPr.Type = v] *)
Definition set_Type (v : string) (p : t) : t :=
  {| ConnectionId := ConnectionId p; GithubId := GithubId p;
     RepoId := RepoId p; Number := Number p; State := State p;
     Title := Title p; Url := Url p; GithubCreatedAt := GithubCreatedAt p;
     GithubUpdatedAt := GithubUpdatedAt p; ClosedAt := ClosedAt p;
     MergedAt := MergedAt p; Body := Body p; BaseRef := BaseRef p;
     BaseCommitSha := BaseCommitSha p; HeadRef := HeadRef p;
     HeadCommitSha := HeadCommitSha p; MergeCommitSha := MergeCommitSha p;
     AuthorName := AuthorName p; AuthorId := AuthorId p;
     Type_ := v; Component := Component p |}.

(** [githubPr.Component = v] *)
Definition set_Component (v : string) (p : t) : t :=
  {| ConnectionId := ConnectionId p; GithubId := GithubId p;
     RepoId := RepoId p; Number := Number p; State := State p;
     Title := Title p; Url := Url p; GithubCreatedAt := GithubCreatedAt p;
     GithubUpdatedAt := GithubUpdatedAt p; ClosedAt := ClosedAt p;
     MergedAt := MergedAt p; Body := Body p; BaseRef := BaseRef p;
     BaseCommitSha := BaseCommitSha p; HeadRef := HeadRef p;
     HeadCommitSha := HeadCommitSha p; MergeCommitSha := MergeCommitSha p;
     AuthorName := AuthorName p; AuthorId := AuthorId p;
     Type_ := Type_ p; Component := v |}.
End GithubPullRequest.

Module GithubReviewer.
Record t : Type :=
  { ConnectionId : Z; PullRequestId : Z; GithubId : Z; Login : string }.
End GithubReviewer.

Module GithubPrReview.
Record t : Type :=
  { ConnectionId : Z;
    GithubId : Z;
    Body : string;
    State : string;
    CommitSha : string;
    GithubSubmitAt : option Time;
    PullRequestId : Z;
    AuthorUserId : Z;
    AuthorUsername : string }.
End GithubPrReview.

Module GithubCommit.
Record t : Type :=
  { Sha : string;
    Message : string;
    AuthorName : string;
    AuthorEmail : string;
    AuthoredDate : Time;
    CommitterName : string;
    CommitterEmail : string;
    CommittedDate : Time;
    Url : string;
    AuthorId : Z }.
End GithubCommit.

Module GithubPrCommit.
Record t : Type :=
  { ConnectionId : Z; CommitSha : string; PullRequestId : Z }.
End GithubPrCommit.

(** [githubTasks.GithubTaskData], with the options the collector reads. *)
Module TransformationRules.
Record t : Type := { PrType : string; PrComponent : string }.
End TransformationRules.

Module GithubOptions.
Record t : Type :=
  { ConnectionId : Z;
    Name : string;
    GithubId : Z;
    GithubTransformationRule : option TransformationRules.t }.
End GithubOptions.

Module GithubTaskData.
Record t : Type :=
  { Options : GithubOptions.t; CreatedDateAfter : option Time }.
End GithubTaskData.

(** A compiled [*regexp.Regexp], known by its [FindStringSubmatch]: the
    whole match followed by the capture groups, or [nil] when the regexp
    does not match. *)
Definition Regexp : Type := string -> list string.

(** A value of the GraphQL variables map. *)
Inductive Variable_ : Type :=
  | graphql_Int (n : Z)
  | graphql_String (s : string)
  | graphql_StringPtr (s : option string).

Definition convertGithubPullRequest (pull : GraphqlQueryPr.t)
    (connId : Z) (repoId : Z) : GithubPullRequest.t * option error :=
  let githubPull : GithubPullRequest.t :=
    {| GithubPullRequest.ConnectionId := connId;
       GithubPullRequest.GithubId := GraphqlQueryPr.DatabaseId pull;
       GithubPullRequest.RepoId := repoId;
       GithubPullRequest.Number := GraphqlQueryPr.Number pull;
       GithubPullRequest.State := GraphqlQueryPr.State pull;
       GithubPullRequest.Title := GraphqlQueryPr.Title pull;
       GithubPullRequest.Url := GraphqlQueryPr.Url pull;
       GithubPullRequest.GithubCreatedAt := GraphqlQueryPr.CreatedAt pull;
       GithubPullRequest.GithubUpdatedAt := GraphqlQueryPr.UpdatedAt pull;
       GithubPullRequest.ClosedAt := GraphqlQueryPr.ClosedAt pull;
       GithubPullRequest.MergedAt := GraphqlQueryPr.MergedAt pull;
       GithubPullRequest.Body := GraphqlQueryPr.Body pull;
       GithubPullRequest.BaseRef := GraphqlQueryPr.BaseRefName pull;
       GithubPullRequest.BaseCommitSha := GraphqlQueryPr.BaseRefOid pull;
       GithubPullRequest.HeadRef := GraphqlQueryPr.HeadRefName pull;
       GithubPullRequest.HeadCommitSha := GraphqlQueryPr.HeadRefOid pull;
       GithubPullRequest.MergeCommitSha :=
         match GraphqlQueryPr.MergeCommit pull with
         | Some oid => oid
         | None => ""
         end;
       GithubPullRequest.AuthorName :=
         match GraphqlQueryPr.Author pull with
         | Some a => GraphqlInlineAccountQuery.Login a
         | None => ""
         end;
       GithubPullRequest.AuthorId :=
         match GraphqlQueryPr.Author pull with
         | Some a => GraphqlInlineAccountQuery.Id a
         | None => 0
         end;
       GithubPullRequest.Type_ := "";
       GithubPullRequest.Component := "" |} in
  (githubPull, None).

Definition convertPullRequestCommit (prCommit : GraphqlQueryCommit.t)
  : GithubCommit.t * option error :=
  let githubCommit : GithubCommit.t :=
    {| GithubCommit.Sha := GraphqlQueryCommit.Commit_Oid prCommit;
       GithubCommit.Message := GraphqlQueryCommit.Commit_Message prCommit;
       GithubCommit.AuthorName :=
         GraphqlQueryCommit.Commit_Author_Name prCommit;
       GithubCommit.AuthorEmail :=
         GraphqlQueryCommit.Commit_Author_Email prCommit;
       GithubCommit.AuthoredDate :=
         GraphqlQueryCommit.Commit_Author_Date prCommit;
       GithubCommit.CommitterName :=
         GraphqlQueryCommit.Commit_Committer_Name prCommit;
       GithubCommit.CommitterEmail :=
         GraphqlQueryCommit.Commit_Committer_Email prCommit;
       GithubCommit.CommittedDate :=
         GraphqlQueryCommit.Commit_Committer_Date prCommit;
       GithubCommit.Url := GraphqlQueryCommit.Url prCommit;
       GithubCommit.AuthorId :=
         match GraphqlQueryCommit.Commit_Author_User prCommit with
         | Some u => GraphqlInlineAccountQuery.Id u
         | None => 0
         end |} in
  (githubCommit, None).

(** The closures of [CollectPr].  They capture the task [data] and the two
    label regexps compiled at the start of [CollectPr].
    [convertGraphqlPreAccount] and its result type [models.GithubAccount]
    are declared in another file of the package and are left open. *)
Section CollectPr.

Variable GithubAccount : Type.
Variable convertGraphqlPreAccount :
  GraphqlInlineAccountQuery.t -> Z -> Z -> GithubAccount * option error.
Variable data : GithubTaskData.t.
Variable labelTypeRegex : option Regexp.
Variable labelComponentRegex : option Regexp.

(** An element of the parser's [[]interface{}] result. *)
Inductive Entity : Type :=
  | AccountOf (a : GithubAccount)
  | PrLabelOf (l : GithubPrLabel.t)
  | PullRequestOf (p : GithubPullRequest.t)
  | ReviewerOf (r : GithubReviewer.t)
  | PrReviewOf (r : GithubPrReview.t)
  | CommitOf (c : GithubCommit.t)
  | PrCommitOf (c : GithubPrCommit.t).

Definition ConnectionId : Z :=
  GithubOptions.ConnectionId (GithubTaskData.Options data).

Definition GithubId : Z :=
  GithubOptions.GithubId (GithubTaskData.Options data).

(** [BuildQuery]: indexing [ownerName[1]] panics when [Name] holds no
    separator. *)
Definition BuildQuery (reqData : GraphqlRequestData.t)
  : Outcome (GraphqlQueryPrWrapper.t * gmap string Variable_ * option error) :=
  let query := GraphqlQueryPrWrapper.zero in
  let ownerName :=
    Split (GithubOptions.Name (GithubTaskData.Options data)) "/" in
  match index ownerName 0 with
  | Panic => Panic
  | Return owner =>
      match index ownerName 1 with
      | Panic => Panic
      | Return name =>
          let variables : gmap string Variable_ :=
            <["name" := graphql_String name]>
              (<["owner" := graphql_String owner]>
                 (<["skipCursor" :=
                      graphql_StringPtr
                        (CursorPager.SkipCursor (GraphqlRequestData.Pager reqData))]>
                    (<["pageSize" :=
                         graphql_Int
                           (to_int32
                              (CursorPager.Size (GraphqlRequestData.Pager reqData)))]>
                       ∅))) in
          Return (query, variables, None)
      end
  end.

(** [GetPageInfo] *)
Definition GetPageInfo (query : GraphqlQueryPrWrapper.t)
  : option GraphqlQueryPageInfo.t * option error :=
  (GraphqlQueryPrWrapper.PageInfo query, None).

(** [groups := re.FindStringSubmatch(label.Name); if len(groups) > 0
    { githubPr.F = groups[1] }], for a regexp that is set. *)
Definition applyLabelRegex (re : option Regexp) (labelName : string)
    (set : string -> GithubPullRequest.t -> GithubPullRequest.t)
    (githubPr : GithubPullRequest.t) : Exec GithubPullRequest.t :=
  match re with
  | None => Done githubPr
  | Some find =>
      let groups := find labelName in
      if bool_decide (0 < length groups)%nat then
        g ← run (index groups 1); Done (set g githubPr)
      else Done githubPr
  end.

(** [for _, label := range rawL.Labels.Nodes { ... }] *)
Fixpoint labelsLoop (labels : list LabelNode.t) (results : list Entity)
    (githubPr : GithubPullRequest.t)
  : Exec (list Entity * GithubPullRequest.t) :=
  match labels with
  | [] => Done (results, githubPr)
  | label :: labels =>
      let results :=
        results ++
          [PrLabelOf
             {| GithubPrLabel.ConnectionId := ConnectionId;
                GithubPrLabel.PullId := GithubPullRequest.GithubId githubPr;
                GithubPrLabel.LabelName := LabelNode.Name label |}] in
      githubPr ← applyLabelRegex labelTypeRegex (LabelNode.Name label)
                   GithubPullRequest.set_Type githubPr;
      githubPr ← applyLabelRegex labelComponentRegex (LabelNode.Name label)
                   GithubPullRequest.set_Component githubPr;
      labelsLoop labels results githubPr
  end.

(** The body of the review loop for one review whose state is not
    ["PENDING"]. *)
Definition reviewBody (apiPullRequestReview : GraphqlQueryReview.t)
    (results : list Entity) (githubPr : GithubPullRequest.t)
  : Exec (list Entity) :=
  let githubReviewer (gid : Z) (login : string) : GithubReviewer.t :=
    {| GithubReviewer.ConnectionId := ConnectionId;
       GithubReviewer.PullRequestId := GithubPullRequest.GithubId githubPr;
       GithubReviewer.GithubId := gid;
       GithubReviewer.Login := login |} in
  let githubPrReview (uid : Z) (username : string) : GithubPrReview.t :=
    {| GithubPrReview.ConnectionId := ConnectionId;
       GithubPrReview.GithubId :=
         GraphqlQueryReview.DatabaseId apiPullRequestReview;
       GithubPrReview.Body := GraphqlQueryReview.Body apiPullRequestReview;
       GithubPrReview.State := GraphqlQueryReview.State apiPullRequestReview;
       GithubPrReview.CommitSha :=
         GraphqlQueryReview.Commit_Oid apiPullRequestReview;
       GithubPrReview.GithubSubmitAt :=
         GraphqlQueryReview.SubmittedAt apiPullRequestReview;
       GithubPrReview.PullRequestId := GithubPullRequest.GithubId githubPr;
       GithubPrReview.AuthorUserId := uid;
       GithubPrReview.AuthorUsername := username |} in
  match GraphqlQueryReview.Author apiPullRequestReview with
  | Some author =>
      githubUser ← check (convertGraphqlPreAccount author GithubId ConnectionId);
      let results := results ++ [AccountOf githubUser] in
      let results :=
        results ++
          [ReviewerOf
             (githubReviewer (GraphqlInlineAccountQuery.Id author)
                (GraphqlInlineAccountQuery.Login author))] in
      Done
        (results ++
           [PrReviewOf
              (githubPrReview (GraphqlInlineAccountQuery.Id author)
                 (GraphqlInlineAccountQuery.Login author))])
  | None =>
      let results := results ++ [ReviewerOf (githubReviewer 0 "")] in
      Done (results ++ [PrReviewOf (githubPrReview 0 "")])
  end.

(** [for _, apiPullRequestReview := range rawL.Reviews.Nodes { ... }] *)
Fixpoint reviewsLoop (reviews : list GraphqlQueryReview.t)
    (results : list Entity) (githubPr : GithubPullRequest.t)
  : Exec (list Entity) :=
  match reviews with
  | [] => Done results
  | apiPullRequestReview :: reviews =>
      if bool_decide
           (GraphqlQueryReview.State apiPullRequestReview ≠ "PENDING") then
        results ← reviewBody apiPullRequestReview results githubPr;
        reviewsLoop reviews results githubPr
      else reviewsLoop reviews results githubPr
  end.

(** [for _, apiPullRequestCommit := range rawL.Commits.Nodes { ... }].  The
    second [if err != nil] of the body tests the error already found [nil]. *)
Fixpoint commitsLoop (commits : list GraphqlQueryCommit.t)
    (results : list Entity) (githubPr : GithubPullRequest.t)
  : Exec (list Entity) :=
  match commits with
  | [] => Done results
  | apiPullRequestCommit :: commits =>
      githubCommit ← check (convertPullRequestCommit apiPullRequestCommit);
      let results := results ++ [CommitOf githubCommit] in
      let githubPullRequestCommit : GithubPrCommit.t :=
        {| GithubPrCommit.ConnectionId := ConnectionId;
           GithubPrCommit.CommitSha :=
             GraphqlQueryCommit.Commit_Oid apiPullRequestCommit;
           GithubPrCommit.PullRequestId :=
             GithubPullRequest.GithubId githubPr |} in
      let results := results ++ [PrCommitOf githubPullRequestCommit] in
      results ←
        match GraphqlQueryCommit.Commit_Author_User apiPullRequestCommit with
        | Some user =>
            githubUser ← check (convertGraphqlPreAccount user GithubId ConnectionId);
            Done (results ++ [AccountOf githubUser])
        | None => Done results
        end;
      commitsLoop commits results githubPr
  end.

(** The body of the loop over the page's pull requests, after the cutoff
    test. *)
Definition prBody (rawL : GraphqlQueryPr.t) (results : list Entity)
  : Exec (list Entity) :=
  githubPr ← check (convertGithubPullRequest rawL ConnectionId GithubId);
  results ←
    match GraphqlQueryPr.Author rawL with
    | Some author =>
        githubUser ← check (convertGraphqlPreAccount author GithubId ConnectionId);
        Done (results ++ [AccountOf githubUser])
    | None => Done results
    end;
  '(results, githubPr) ←
    labelsLoop (GraphqlQueryPr.Labels_Nodes rawL) results githubPr;
  let results := results ++ [PullRequestOf githubPr] in
  results ← reviewsLoop (GraphqlQueryPr.Reviews_Nodes rawL) results githubPr;
  commitsLoop (GraphqlQueryPr.Commits_Nodes rawL) results githubPr.

(** [data.CreatedDateAfter != nil &&
     !data.CreatedDateAfter.Before(rawL.CreatedAt)] *)
Definition pastCutoff (rawL : GraphqlQueryPr.t) : bool :=
  match GithubTaskData.CreatedDateAfter data with
  | Some createdDateAfter =>
      negb (Before createdDateAfter (GraphqlQueryPr.CreatedAt rawL))
  | None => false
  end.

(** [for _, rawL := range prs { ... }]: the results so far and [isFinish]. *)
Fixpoint prsLoop (prs : list GraphqlQueryPr.t) (results : list Entity)
  : Exec (list Entity * bool) :=
  match prs with
  | [] => Done (results, false)
  | rawL :: prs =>
      if pastCutoff rawL then Done (results, true)
      else results ← prBody rawL results; prsLoop prs results
  end.

(** [ResponseParser] *)
Definition ResponseParser (query : GraphqlQueryPrWrapper.t)
  : Outcome (list Entity * option error) :=
  let prs := GraphqlQueryPrWrapper.Prs query in
  match prsLoop prs [] with
  | Panicked => Panic
  | Failed err => Return ([], Some err)
  | Done (results, isFinish) =>
      if isFinish then Return (results, Some ErrFinishCollect)
      else Return (results, None)
  end.

End CollectPr.

Arguments AccountOf {GithubAccount} a.
Arguments PrLabelOf {GithubAccount} l.
Arguments PullRequestOf {GithubAccount} p.
Arguments ReviewerOf {GithubAccount} r.
Arguments PrReviewOf {GithubAccount} r.
Arguments CommitOf {GithubAccount} c.
Arguments PrCommitOf {GithubAccount} c.

(** [helper.GraphqlCollectorArgs], with the fields [CollectPr] sets. *)
Record GraphqlCollectorArgs (GithubAccount : Type) : Type :=
  { Params_ConnectionId : Z;
    Params_Name : string;
    Table : string;
    PageSize : Z;
    Args_BuildQuery :
      GraphqlRequestData.t ->
      Outcome (GraphqlQueryPrWrapper.t * gmap string Variable_ * option error);
    Args_GetPageInfo :
      GraphqlQueryPrWrapper.t -> option GraphqlQueryPageInfo.t * option error;
    Args_ResponseParser :
      GraphqlQueryPrWrapper.t ->
      Outcome (list (Entity GithubAccount) * option error) }.
Arguments Params_ConnectionId {GithubAccount} _.
Arguments Params_Name {GithubAccount} _.
Arguments Table {GithubAccount} _.
Arguments PageSize {GithubAccount} _.
Arguments Args_BuildQuery {GithubAccount} _.
Arguments Args_GetPageInfo {GithubAccount} _.
Arguments Args_ResponseParser {GithubAccount} _.

(** [CollectPr].  [regexp.Compile], [errors.Default.Wrap] and the engine's
    [helper.NewGraphqlCollector] and [Execute] are left open;
    [errors.Convert] only changes the static type of the error. *)
Section CollectPrTask.

Variable GithubAccount : Type.
Variable convertGraphqlPreAccount :
  GraphqlInlineAccountQuery.t -> Z -> Z -> GithubAccount * option error.
Variable regexp_Compile : string -> option Regexp * option error.
Variable Wrap : error -> string -> error.
Variable GraphqlCollector : Type.
Variable NewGraphqlCollector :
  GraphqlCollectorArgs GithubAccount -> GraphqlCollector * option error.
Variable Execute : GraphqlCollector -> Outcome (option error).

(** [if config != nil && len(pattern) > 0 { re, err = regexp.Compile(pattern) }] *)
Definition compileRule (config : option TransformationRules.t)
    (pattern : TransformationRules.t -> string)
  : option Regexp * option error :=
  match config with
  | Some c =>
      if bool_decide (0 < String.length (pattern c))%nat
      then regexp_Compile (pattern c)
      else (None, None)
  | None => (None, None)
  end.

Definition CollectPr (data : GithubTaskData.t) : Outcome (option error) :=
  let config := GithubOptions.GithubTransformationRule (GithubTaskData.Options data) in
  let '(labelTypeRegex, err) := compileRule config TransformationRules.PrType in
  match err with
  | Some e => Return (Some (Wrap e "regexp Compile prType failed"))
  | None =>
      let '(labelComponentRegex, err) :=
        compileRule config TransformationRules.PrComponent in
      match err with
      | Some e => Return (Some (Wrap e "regexp Compile prComponent failed"))
      | None =>
          let '(collector, err) :=
            NewGraphqlCollector
              {| Params_ConnectionId :=
                   GithubOptions.ConnectionId (GithubTaskData.Options data);
                 Params_Name := GithubOptions.Name (GithubTaskData.Options data);
                 Table := RAW_PRS_TABLE;
                 PageSize := 30;
                 Args_BuildQuery := BuildQuery data;
                 Args_GetPageInfo := GetPageInfo;
                 Args_ResponseParser :=
                   ResponseParser GithubAccount convertGraphqlPreAccount data
                     labelTypeRegex labelComponentRegex |} in
          match err with
          | Some e => Return (Some e)
          | None => Execute collector
          end
      end
  end.

End CollectPrTask.

End github_graphql.

(** ** The Opsgenie team extractor ([ExtractTeams]) *)

Module opsgenie.

(** [raw.Team]: the decoded payload.  The extractor dereferences [Id],
    [Name] and [Description], which are pointers. *)
Module raw_Team.
Record t : Type :=
  { Id : option string; Name : option string; Description : option string }.

(** [&raw.Team{}] *)
Definition zero : t := {| Id := None; Name := None; Description := None |}.
End raw_Team.

(** [models.Team] *)
Module Team.
Record t : Type :=
  { ConnectionId : Z; Id : string; Name : string; Description : string }.
End Team.

Record OpsgenieOptions : Type := { ConnectionId : Z }.

Record OpsgenieTaskData : Type := { Options : OpsgenieOptions }.

(** [*p]: dereferencing a nil pointer panics. *)
Definition deref {A : Type} (p : option A) : Outcome A :=
  match p with
  | Some a => Return a
  | None => Panic
  end.

(** [ExtractTeams] and its [Extract] closure.  [json.Unmarshal] into a
    [*raw.Team], the table name [RAW_TEAMS_TABLE], the engine's rendering
    of the options and the failure of [NewApiExtractor] are left open. *)
Section ExtractTeams.

Variable json_Unmarshal : string -> raw_Team.t -> raw_Team.t * option error.
Variable RAW_TEAMS_TABLE : string.
Variable renderOptions : OpsgenieOptions -> string.
Variable newExtractorError : option error.

Definition Extract (data : OpsgenieTaskData) (row : helper.RawData)
  : Outcome (list Team.t * option error) :=
  let teamRaw := raw_Team.zero in
  let '(teamRaw, err) := json_Unmarshal (helper.Data row) teamRaw in
  match err with
  | Some e => Return ([], Some e)
  | None =>
      let results : list Team.t := [] in
      match deref (raw_Team.Id teamRaw) with
      | Panic => Panic
      | Return id =>
          match deref (raw_Team.Name teamRaw) with
          | Panic => Panic
          | Return name =>
              match deref (raw_Team.Description teamRaw) with
              | Panic => Panic
              | Return description =>
                  let user : Team.t :=
                    {| Team.ConnectionId := ConnectionId (Options data);
                       Team.Id := id;
                       Team.Name := name;
                       Team.Description := description |} in
                  let results := results ++ [user] in
                  Return (results, None)
              end
          end
      end
  end.

Definition ExtractTeams (data : OpsgenieTaskData)
    (store : helper.ExtractorStore Team.t)
  : Outcome (option error * helper.ExtractorStore Team.t) :=
  let extractor : helper.ApiExtractorArgs Team.t :=
    {| helper.ExtractorArgs :=
         {| helper.Table := RAW_TEAMS_TABLE;
            helper.Params := renderOptions (Options data) |};
       helper.Extract := Extract data |} in
  match newExtractorError with
  | Some e => Return (Some e, store)
  | None => helper.ExtractorExecute extractor store
  end.

End ExtractTeams.

End opsgenie.

(** ** Vocabulary of the statements *)


(** The byte [sep] occurs in [s]. *)
Fixpoint occurs (sep : ascii) (s : string) : bool :=
  match s with
  | EmptyString => false
  | String c rest => bool_decide (c = sep) || occurs sep rest
  end.

(** Appending to results that were there before. *)
Definition after {A B : Type} (results : list A) (m : Exec (list A * B))
  : Exec (list A * B) :=
  match m with
  | Panicked => Panicked
  | Failed e => Failed e
  | Done (produced, b) => Done (results ++ produced, b)
  end.

Definition appended {A : Type} (results : list A) (m : Exec (list A))
  : Exec (list A) :=
  match m with
  | Panicked => Panicked
  | Failed e => Failed e
  | Done produced => Done (results ++ produced)
  end.

Section PrVocabulary.

Variable GithubAccount : Type.
Variable convertGraphqlPreAccount :
  github_graphql.GraphqlInlineAccountQuery.t -> Z -> Z ->
  GithubAccount * option error.
Variable data : github_graphql.GithubTaskData.t.
Variable labelTypeRegex : option github_graphql.Regexp.
Variable labelComponentRegex : option github_graphql.Regexp.

(** The records of a page that the parser's loop reaches: those before the
    first one that is past the cutoff. *)
Fixpoint reached (prs : list github_graphql.GraphqlQueryPr.t)
  : list github_graphql.GraphqlQueryPr.t :=
  match prs with
  | [] => []
  | rawL :: prs =>
      if github_graphql.pastCutoff data rawL then [] else rawL :: reached prs
  end.

(** The units the loop body produces from one record, on their own. *)
Definition unitsOf (rawL : github_graphql.GraphqlQueryPr.t)
  : Exec (list (github_graphql.Entity GithubAccount)) :=
  github_graphql.prBody GithubAccount convertGraphqlPreAccount data
    labelTypeRegex labelComponentRegex rawL [].

(** The units of several records, record by record. *)
Fixpoint unitsOfAll (prs : list github_graphql.GraphqlQueryPr.t)
  : Exec (list (list (github_graphql.Entity GithubAccount))) :=
  match prs with
  | [] => Done []
  | rawL :: prs =>
      u ← unitsOf rawL; us ← unitsOfAll prs; Done (u :: us)
  end.

(** The pull-request records among the parser's results. *)
Definition pullRequestsIn (results : list (github_graphql.Entity GithubAccount))
  : list github_graphql.GithubPullRequest.t :=
  omap (fun e => match e with
                 | github_graphql.PullRequestOf p => Some p
                 | _ => None
                 end) results.

(** The review and reviewer records among the parser's results. *)
Definition reviewsIn (results : list (github_graphql.Entity GithubAccount))
  : list github_graphql.GithubPrReview.t :=
  omap (fun e => match e with
                 | github_graphql.PrReviewOf r => Some r
                 | _ => None
                 end) results.

Definition reviewersIn (results : list (github_graphql.Entity GithubAccount))
  : list github_graphql.GithubReviewer.t :=
  omap (fun e => match e with
                 | github_graphql.ReviewerOf r => Some r
                 | _ => None
                 end) results.

(** The reviews of a pull request whose state is not ["PENDING"]. *)
Definition submitted (rawL : github_graphql.GraphqlQueryPr.t)
  : list github_graphql.GraphqlQueryReview.t :=
  filter (fun rv => github_graphql.GraphqlQueryReview.State rv ≠ "PENDING")
    (github_graphql.GraphqlQueryPr.Reviews_Nodes rawL).

(** The review record of one review of the pull request [rawL]. *)
Definition reviewRecord (rawL : github_graphql.GraphqlQueryPr.t)
    (rv : github_graphql.GraphqlQueryReview.t)
  : github_graphql.GithubPrReview.t :=
  {| github_graphql.GithubPrReview.ConnectionId :=
       github_graphql.ConnectionId data;
     github_graphql.GithubPrReview.GithubId :=
       github_graphql.GraphqlQueryReview.DatabaseId rv;
     github_graphql.GithubPrReview.Body :=
       github_graphql.GraphqlQueryReview.Body rv;
     github_graphql.GithubPrReview.State :=
       github_graphql.GraphqlQueryReview.State rv;
     github_graphql.GithubPrReview.CommitSha :=
       github_graphql.GraphqlQueryReview.Commit_Oid rv;
     github_graphql.GithubPrReview.GithubSubmitAt :=
       github_graphql.GraphqlQueryReview.SubmittedAt rv;
     github_graphql.GithubPrReview.PullRequestId :=
       github_graphql.GraphqlQueryPr.DatabaseId rawL;
     github_graphql.GithubPrReview.AuthorUserId :=
       from_option github_graphql.GraphqlInlineAccountQuery.Id 0
         (github_graphql.GraphqlQueryReview.Author rv);
     github_graphql.GithubPrReview.AuthorUsername :=
       from_option github_graphql.GraphqlInlineAccountQuery.Login ""
         (github_graphql.GraphqlQueryReview.Author rv) |}.

(** The reviewer record of one review of the pull request [rawL]. *)
Definition reviewerRecord (rawL : github_graphql.GraphqlQueryPr.t)
    (rv : github_graphql.GraphqlQueryReview.t)
  : github_graphql.GithubReviewer.t :=
  {| github_graphql.GithubReviewer.ConnectionId :=
       github_graphql.ConnectionId data;
     github_graphql.GithubReviewer.PullRequestId :=
       github_graphql.GraphqlQueryPr.DatabaseId rawL;
     github_graphql.GithubReviewer.GithubId :=
       from_option github_graphql.GraphqlInlineAccountQuery.Id 0
         (github_graphql.GraphqlQueryReview.Author rv);
     github_graphql.GithubReviewer.Login :=
       from_option github_graphql.GraphqlInlineAccountQuery.Login ""
         (github_graphql.GraphqlQueryReview.Author rv) |}.

End PrVocabulary.

Arguments pullRequestsIn {GithubAccount} results.
Arguments reviewsIn {GithubAccount} results.
Arguments reviewersIn {GithubAccount} results.

(** [strings.Join(pieces, sep)] for a separator of one byte. *)
Definition Join (pieces : list string) (sep : ascii) : string :=
  String.concat (String sep EmptyString) pieces.

(** What a label regexp makes of one label name: the first capture group
    of its match, or the value there was when it does not match. *)
Definition capture (re : option github_graphql.Regexp) (labelName : string)
    (current : string) : string :=
  match re with
  | None => current
  | Some find =>
      match find labelName with
      | _ :: group :: _ => group
      | _ => current
      end
  end.

(** The capture of the last label that matches. *)
Definition lastCapture (re : option github_graphql.Regexp)
    (labels : list github_graphql.LabelNode.t) (current : string) : string :=
  foldl (fun acc label => capture re (github_graphql.LabelNode.Name label) acc)
    current labels.

Section PrRecords.

Variable GithubAccount : Type.
Variable convertGraphqlPreAccount :
  github_graphql.GraphqlInlineAccountQuery.t -> Z -> Z ->
  GithubAccount * option error.
Variable data : github_graphql.GithubTaskData.t.

(** The records of the other kinds among the parser's results. *)
Definition accountsIn (results : list (github_graphql.Entity GithubAccount))
  : list GithubAccount :=
  omap (fun e => match e with
                 | github_graphql.AccountOf a => Some a
                 | _ => None
                 end) results.

Definition labelsIn (results : list (github_graphql.Entity GithubAccount))
  : list github_graphql.GithubPrLabel.t :=
  omap (fun e => match e with
                 | github_graphql.PrLabelOf l => Some l
                 | _ => None
                 end) results.

Definition commitsIn (results : list (github_graphql.Entity GithubAccount))
  : list github_graphql.GithubCommit.t :=
  omap (fun e => match e with
                 | github_graphql.CommitOf c => Some c
                 | _ => None
                 end) results.

Definition prCommitsIn (results : list (github_graphql.Entity GithubAccount))
  : list github_graphql.GithubPrCommit.t :=
  omap (fun e => match e with
                 | github_graphql.PrCommitOf c => Some c
                 | _ => None
                 end) results.

(** The kinds of records each part of the loop body produces. *)
Definition fromReview (e : github_graphql.Entity GithubAccount) : bool :=
  match e with
  | github_graphql.AccountOf _
  | github_graphql.ReviewerOf _
  | github_graphql.PrReviewOf _ => true
  | _ => false
  end.

Definition fromCommit (e : github_graphql.Entity GithubAccount) : bool :=
  match e with
  | github_graphql.AccountOf _
  | github_graphql.CommitOf _
  | github_graphql.PrCommitOf _ => true
  | _ => false
  end.

Definition isAccount (e : github_graphql.Entity GithubAccount) : bool :=
  match e with
  | github_graphql.AccountOf _ => true
  | _ => false
  end.

Definition isLabel (e : github_graphql.Entity GithubAccount) : bool :=
  match e with
  | github_graphql.PrLabelOf _ => true
  | _ => false
  end.

(** The label record of one label of the pull request [rawL]. *)
Definition labelRecord (rawL : github_graphql.GraphqlQueryPr.t)
    (label : github_graphql.LabelNode.t) : github_graphql.GithubPrLabel.t :=
  {| github_graphql.GithubPrLabel.ConnectionId :=
       github_graphql.ConnectionId data;
     github_graphql.GithubPrLabel.PullId :=
       github_graphql.GraphqlQueryPr.DatabaseId rawL;
     github_graphql.GithubPrLabel.LabelName :=
       github_graphql.LabelNode.Name label |}.

(** The link record of one commit of the pull request [rawL]. *)
Definition prCommitRecord (rawL : github_graphql.GraphqlQueryPr.t)
    (c : github_graphql.GraphqlQueryCommit.t) : github_graphql.GithubPrCommit.t :=
  {| github_graphql.GithubPrCommit.ConnectionId :=
       github_graphql.ConnectionId data;
     github_graphql.GithubPrCommit.CommitSha :=
       github_graphql.GraphqlQueryCommit.Commit_Oid c;
     github_graphql.GithubPrCommit.PullRequestId :=
       github_graphql.GraphqlQueryPr.DatabaseId rawL |}.

(** The account converted from a user. *)
Definition accountOf (user : github_graphql.GraphqlInlineAccountQuery.t)
  : GithubAccount :=
  (convertGraphqlPreAccount user (github_graphql.GithubId data)
     (github_graphql.ConnectionId data)).1.

(** The users whose accounts the loop body converts for one pull request,
    in the order in which it does: the author, the authors of the reviews
    that are not pending, the users of the commits' authors. *)
Definition usersOf (rawL : github_graphql.GraphqlQueryPr.t)
  : list github_graphql.GraphqlInlineAccountQuery.t :=
  option_list (github_graphql.GraphqlQueryPr.Author rawL)
  ++ omap github_graphql.GraphqlQueryReview.Author
       (filter
          (fun rv => github_graphql.GraphqlQueryReview.State rv ≠ "PENDING")
          (github_graphql.GraphqlQueryPr.Reviews_Nodes rawL))
  ++ omap github_graphql.GraphqlQueryCommit.Commit_Author_User
       (github_graphql.GraphqlQueryPr.Commits_Nodes rawL).

End PrRecords.

Arguments accountsIn {GithubAccount} results.
Arguments labelsIn {GithubAccount} results.
Arguments commitsIn {GithubAccount} results.
Arguments prCommitsIn {GithubAccount} results.
Arguments fromReview {GithubAccount} e.
Arguments fromCommit {GithubAccount} e.
Arguments isAccount {GithubAccount} e.
Arguments isLabel {GithubAccount} e.

(** ** Sample inputs *)

Module sample.

(** China Standard Time. *)
Definition cst : Location := FixedZone 28800.

(** A Tapd task whose caller asks for worklogs created after
    2023-11-14T22:13:20Z, while the last successful run started at
    2020-09-13T12:26:40Z. *)
Definition tapdData : tapd.TapdTaskData :=
  {| tapd.Options := {| tapd.WorkspaceId := 7; tapd.CstZone := cst |};
     tapd.CreatedDateAfter := Some 1700000000 |}.

Definition tapdArgs : helper.RawDataSubTaskArgs :=
  {| helper.Table := tapd.RAW_WORKLOG_TABLE; helper.Params := "7" |}.

Definition tapdManager : helper.ApiCollectorStateManager :=
  {| helper.Args := tapdArgs;
     helper.LatestState := {| helper.LatestSuccessStart := Some 1600000000 |};
     helper.CreatedDateAfter := Some 1700000000;
     helper.ExecuteStart := 1800000000;
     helper.OptIn := true |}.

Definition firstPage : helper.RequestData :=
  {| helper.RequestData_Pager :=
       {| helper.Page := 1; helper.Skip := 0; helper.Size := 100 |} |}.

Definition createRawDataSubTaskArgs (data : tapd.TapdTaskData)
    (table : string) (_ : bool)
  : helper.RawDataSubTaskArgs * tapd.TapdTaskData :=
  ({| helper.Table := table;
      helper.Params := Sprintf_v (tapd.WorkspaceId (tapd.Options data)) |},
   data).

(** A response body holding one raw message per line. *)
Definition linesOfResponse (body : string) : list string * option error :=
  (Split body "010", None).

(** A run whose second page cannot be fetched. *)
Definition failingRun : helper.CollectorEnv :=
  {| helper.states := {[ ("tapd_api_worklogs", "7") :=
                           {| helper.LatestSuccessStart := Some 1600000000 |} ]};
     helper.loadError := None;
     helper.initError := None;
     helper.answers :=
       [helper.Fetched (String.concat (String "010" "") (replicate 100 "{}"));
        helper.FetchFailed (ErrOther "connection reset")];
     helper.commitError := None;
     helper.now := 1800000000;
     helper.incrementalRequested := true |}.

(** The same run with a short second page. *)
Definition succeedingRun : helper.CollectorEnv :=
  {| helper.states := helper.states failingRun;
     helper.loadError := None;
     helper.initError := None;
     helper.answers :=
       [helper.Fetched (String.concat (String "010" "") (replicate 100 "{}"));
        helper.Fetched "{}"];
     helper.commitError := None;
     helper.now := 1800000000;
     helper.incrementalRequested := true |}.

(** GitHub accounts, kept by their login. *)
Definition convertAccount (a : github_graphql.GraphqlInlineAccountQuery.t)
    (_ _ : Z) : string * option error :=
  (github_graphql.GraphqlInlineAccountQuery.Login a, None).

Definition githubData (name : string) (cutoff : option Time)
  : github_graphql.GithubTaskData.t :=
  {| github_graphql.GithubTaskData.Options :=
       {| github_graphql.GithubOptions.ConnectionId := 1;
          github_graphql.GithubOptions.Name := name;
          github_graphql.GithubOptions.GithubId := 42;
          github_graphql.GithubOptions.GithubTransformationRule := None |};
     github_graphql.GithubTaskData.CreatedDateAfter := cutoff |}.

Definition review (author : string) (state : string) (id : Z)
  : github_graphql.GraphqlQueryReview.t :=
  {| github_graphql.GraphqlQueryReview.Body := "";
     github_graphql.GraphqlQueryReview.Author :=
       Some {| github_graphql.GraphqlInlineAccountQuery.Login := author;
               github_graphql.GraphqlInlineAccountQuery.Id := id |};
     github_graphql.GraphqlQueryReview.State := state;
     github_graphql.GraphqlQueryReview.DatabaseId := id;
     github_graphql.GraphqlQueryReview.Commit_Oid := "c0ffee";
     github_graphql.GraphqlQueryReview.SubmittedAt := None |}.

(** A pull request created at [created], with the given labels and
    reviews and no author, assignee or commit. *)
Definition pullRequest (created : Time) (labels : list string)
    (reviews : list github_graphql.GraphqlQueryReview.t)
  : github_graphql.GraphqlQueryPr.t :=
  {| github_graphql.GraphqlQueryPr.DatabaseId := 100 + created;
     github_graphql.GraphqlQueryPr.Number := created;
     github_graphql.GraphqlQueryPr.State := "OPEN";
     github_graphql.GraphqlQueryPr.Title := "";
     github_graphql.GraphqlQueryPr.Body := "";
     github_graphql.GraphqlQueryPr.Url := "";
     github_graphql.GraphqlQueryPr.Labels_Nodes :=
       (fun l => {| github_graphql.LabelNode.Id := l;
                    github_graphql.LabelNode.Name := l |}) <$> labels;
     github_graphql.GraphqlQueryPr.Author := None;
     github_graphql.GraphqlQueryPr.Assignees_Assignees := [];
     github_graphql.GraphqlQueryPr.ClosedAt := None;
     github_graphql.GraphqlQueryPr.MergedAt := None;
     github_graphql.GraphqlQueryPr.UpdatedAt := created;
     github_graphql.GraphqlQueryPr.CreatedAt := created;
     github_graphql.GraphqlQueryPr.MergeCommit := None;
     github_graphql.GraphqlQueryPr.HeadRefName := "";
     github_graphql.GraphqlQueryPr.HeadRefOid := "";
     github_graphql.GraphqlQueryPr.BaseRefName := "";
     github_graphql.GraphqlQueryPr.BaseRefOid := "";
     github_graphql.GraphqlQueryPr.Commits_Nodes := [];
     github_graphql.GraphqlQueryPr.Reviews_Nodes := reviews |}.

Definition page (prs : list github_graphql.GraphqlQueryPr.t)
  : github_graphql.GraphqlQueryPrWrapper.t :=
  {| github_graphql.GraphqlQueryPrWrapper.RateLimit_Cost := 1;
     github_graphql.GraphqlQueryPrWrapper.PageInfo := None;
     github_graphql.GraphqlQueryPrWrapper.Prs := prs;
     github_graphql.GraphqlQueryPrWrapper.TotalCount := 5 |}.

(** Five pull requests, newest first, created at 5, 4, 3, 2 and 1. *)
Definition newestFirst : list github_graphql.GraphqlQueryPr.t :=
  (fun t => pullRequest t [] []) <$> [5; 4; 3; 2; 1].

(** The creation times of the pull requests among a parser's results. *)
Definition stagedTimes (results : list (github_graphql.Entity string))
  : list Time :=
  omap (fun e => match e with
                 | github_graphql.PullRequestOf p =>
                     Some (github_graphql.GithubPullRequest.GithubCreatedAt p)
                 | _ => None
                 end) results.

(** Two pull requests with labels and reviews, one review still pending. *)
Definition reviewed : list github_graphql.GraphqlQueryPr.t :=
  [pullRequest 5 ["bug"]
     [review "ann" "APPROVED" 11; review "bob" "PENDING" 12];
   pullRequest 4 [] [review "cyd" "COMMENTED" 13]].

(** What the loop body produces from each record of a list, for a task
    with the given cutoff and no label regexps. *)
Definition units (cutoff : option Time)
    (prs : list github_graphql.GraphqlQueryPr.t)
  : list (list (github_graphql.Entity string)) :=
  omap (fun rawL =>
          match unitsOf string convertAccount
                  (githubData "apache/incubator-devlake" cutoff) None None rawL
          with
          | Done u => Some u
          | _ => None
          end) prs.

(** The parser of a task with the given cutoff and no label regexps. *)
Definition parse (cutoff : option Time)
    (prs : list github_graphql.GraphqlQueryPr.t)
  : Outcome (list (github_graphql.Entity string) * option error) :=
  github_graphql.ResponseParser string convertAccount
    (githubData "apache/incubator-devlake" cutoff) None None (page prs).

(** A decoder for flat JSON objects whose members are strings without
    escapes, enough to run the extractor on sample payloads. *)
Inductive token : Type :=
  | LBrace
  | RBrace
  | Colon
  | Comma
  | Str (s : string).

Definition quote : ascii := ascii_of_nat 34.

Fixpoint lex (s : string) (open : option string) : option (list token) :=
  match s with
  | EmptyString =>
      match open with
      | None => Some []
      | Some _ => None
      end
  | String c rest =>
      match open with
      | Some text =>
          if decide (c = quote) then ts ← lex rest None; Some (Str text :: ts)
          else lex rest (Some (text +:+ String c EmptyString))
      | None =>
          if decide (c = quote) then lex rest (Some EmptyString)
          else if decide (c = " "%char) then lex rest None
          else if decide (c = "{"%char) then ts ← lex rest None; Some (LBrace :: ts)
          else if decide (c = "}"%char) then ts ← lex rest None; Some (RBrace :: ts)
          else if decide (c = ":"%char) then ts ← lex rest None; Some (Colon :: ts)
          else if decide (c = ","%char) then ts ← lex rest None; Some (Comma :: ts)
          else None
      end
  end.

Definition assign (key value : string) (team : opsgenie.raw_Team.t)
  : opsgenie.raw_Team.t :=
  if decide (key = "id") then
    {| opsgenie.raw_Team.Id := Some value;
       opsgenie.raw_Team.Name := opsgenie.raw_Team.Name team;
       opsgenie.raw_Team.Description := opsgenie.raw_Team.Description team |}
  else if decide (key = "name") then
    {| opsgenie.raw_Team.Id := opsgenie.raw_Team.Id team;
       opsgenie.raw_Team.Name := Some value;
       opsgenie.raw_Team.Description := opsgenie.raw_Team.Description team |}
  else if decide (key = "description") then
    {| opsgenie.raw_Team.Id := opsgenie.raw_Team.Id team;
       opsgenie.raw_Team.Name := opsgenie.raw_Team.Name team;
       opsgenie.raw_Team.Description := Some value |}
  else team.

Fixpoint members (ts : list token) (team : opsgenie.raw_Team.t)
  : option opsgenie.raw_Team.t :=
  match ts with
  | Str key :: Colon :: Str value :: [RBrace] => Some (assign key value team)
  | Str key :: Colon :: Str value :: Comma :: rest =>
      members rest (assign key value team)
  | _ => None
  end.

Definition unmarshal (payload : string) (team : opsgenie.raw_Team.t)
  : opsgenie.raw_Team.t * option error :=
  match lex payload None with
  | Some [LBrace; RBrace] => (team, None)
  | Some (LBrace :: ts) =>
      match members ts team with
      | Some team' => (team', None)
      | None => (team, Some (ErrOther "json: malformed object"))
      end
  | _ => (team, Some (ErrOther "json: invalid character"))
  end.

Definition quoted (s : string) : string :=
  String quote s +:+ String quote EmptyString.

Definition member (key value : string) : string :=
  quoted key +:+ ":" +:+ quoted value.

Definition fullTeam : string :=
  "{" +:+ member "id" "t1" +:+ "," +:+ member "name" "ops" +:+ ","
      +:+ member "description" "on call" +:+ "}".

Definition teamWithoutDescription : string :=
  "{" +:+ member "id" "t2" +:+ "," +:+ member "name" "sre" +:+ "}".

Definition brokenTeam : string := "{" +:+ member "id" "t3" +:+ ",".

Definition teamsIdentity : helper.Identity := ("_raw_opsgenie_teams", "1").

Definition teamsData : opsgenie.OpsgenieTaskData :=
  {| opsgenie.Options := {| opsgenie.ConnectionId := 1 |} |}.

Definition priorTeam : opsgenie.Team.t :=
  {| opsgenie.Team.ConnectionId := 1;
     opsgenie.Team.Id := "t0";
     opsgenie.Team.Name := "old";
     opsgenie.Team.Description := "from the run before" |}.

Definition teamsStore (payloads : list string)
  : helper.ExtractorStore opsgenie.Team.t :=
  {| helper.rawRecords :=
       {[ teamsIdentity :=
            imap (fun i p => {| helper.ID := Z.of_nat i; helper.Data := p |})
              payloads ]};
     helper.typedRecords := {[ teamsIdentity := [priorTeam] ]} |}.

Definition extractTeams (payloads : list string)
  : Outcome (option error * helper.ExtractorStore opsgenie.Team.t) :=
  opsgenie.ExtractTeams unmarshal "_raw_opsgenie_teams"
    (fun o => Sprintf_v (opsgenie.ConnectionId o)) None teamsData
    (teamsStore payloads).

(** A label regexp with one capture group: [type/] followed by the
    captured rest of the name. *)
Definition typeRegexp : github_graphql.Regexp :=
  fun name =>
    if String.prefix "type/" name
    then [name; String.substring 5 (String.length name - 5) name]
    else [].

(** A label regexp without a capture group, matching the name [bug]. *)
Definition grouplessRegexp : github_graphql.Regexp :=
  fun name => if decide (name = "bug") then ["bug"] else [].

(** A compiler that knows the two patterns above and rejects an unclosed
    group. *)
Definition compile (pattern : string)
  : option github_graphql.Regexp * option error :=
  if decide (pattern = "type/(.*)") then (Some typeRegexp, None)
  else if decide (pattern = "bug") then (Some grouplessRegexp, None)
  else (None, Some (ErrOther "error parsing regexp: missing closing )")).

Definition wrap (e : error) (msg : string) : error :=
  match e with
  | ErrFinishCollect => ErrOther msg
  | ErrOther cause => ErrOther (msg +:+ ": " +:+ cause)
  end.

(** An account conversion that fails for the login [ghost]. *)
Definition convertKnownAccount (a : github_graphql.GraphqlInlineAccountQuery.t)
    (_ _ : Z) : string * option error :=
  if decide (github_graphql.GraphqlInlineAccountQuery.Login a = "ghost")
  then ("", Some (ErrOther "unknown account"))
  else (github_graphql.GraphqlInlineAccountQuery.Login a, None).

Definition user (login : string) (id : Z)
  : github_graphql.GraphqlInlineAccountQuery.t :=
  {| github_graphql.GraphqlInlineAccountQuery.Login := login;
     github_graphql.GraphqlInlineAccountQuery.Id := id |}.

Definition commit (oid : string)
    (author : option github_graphql.GraphqlInlineAccountQuery.t)
  : github_graphql.GraphqlQueryCommit.t :=
  {| github_graphql.GraphqlQueryCommit.Commit_Oid := oid;
     github_graphql.GraphqlQueryCommit.Commit_Message := "";
     github_graphql.GraphqlQueryCommit.Commit_Author_Name := "";
     github_graphql.GraphqlQueryCommit.Commit_Author_Email := "";
     github_graphql.GraphqlQueryCommit.Commit_Author_Date := 0;
     github_graphql.GraphqlQueryCommit.Commit_Author_User := author;
     github_graphql.GraphqlQueryCommit.Commit_Committer_Date := 0;
     github_graphql.GraphqlQueryCommit.Commit_Committer_Email := "";
     github_graphql.GraphqlQueryCommit.Commit_Committer_Name := "";
     github_graphql.GraphqlQueryCommit.Url := "" |}.

(** A pull request with an author, labels, reviews and commits. *)
Definition fullPullRequest (created : Time)
    (author : option github_graphql.GraphqlInlineAccountQuery.t)
    (labels : list string)
    (reviews : list github_graphql.GraphqlQueryReview.t)
    (commits : list github_graphql.GraphqlQueryCommit.t)
  : github_graphql.GraphqlQueryPr.t :=
  {| github_graphql.GraphqlQueryPr.DatabaseId := 100 + created;
     github_graphql.GraphqlQueryPr.Number := created;
     github_graphql.GraphqlQueryPr.State := "OPEN";
     github_graphql.GraphqlQueryPr.Title := "";
     github_graphql.GraphqlQueryPr.Body := "";
     github_graphql.GraphqlQueryPr.Url := "";
     github_graphql.GraphqlQueryPr.Labels_Nodes :=
       (fun l => {| github_graphql.LabelNode.Id := l;
                    github_graphql.LabelNode.Name := l |}) <$> labels;
     github_graphql.GraphqlQueryPr.Author := author;
     github_graphql.GraphqlQueryPr.Assignees_Assignees := [];
     github_graphql.GraphqlQueryPr.ClosedAt := None;
     github_graphql.GraphqlQueryPr.MergedAt := None;
     github_graphql.GraphqlQueryPr.UpdatedAt := created;
     github_graphql.GraphqlQueryPr.CreatedAt := created;
     github_graphql.GraphqlQueryPr.MergeCommit := None;
     github_graphql.GraphqlQueryPr.HeadRefName := "";
     github_graphql.GraphqlQueryPr.HeadRefOid := "";
     github_graphql.GraphqlQueryPr.BaseRefName := "";
     github_graphql.GraphqlQueryPr.BaseRefOid := "";
     github_graphql.GraphqlQueryPr.Commits_Nodes := commits;
     github_graphql.GraphqlQueryPr.Reviews_Nodes := reviews |}.

(** Two pull requests, the first with two type labels, a review and two
    commits of the same user. *)
Definition busy : list github_graphql.GraphqlQueryPr.t :=
  [fullPullRequest 7 (Some (user "ann" 1)) ["type/bug"; "area/ui"; "type/docs"]
     [review "bob" "APPROVED" 11; review "eve" "PENDING" 12]
     [commit "c1" (Some (user "ann" 1)); commit "c2" None;
      commit "c3" (Some (user "ann" 1))];
   fullPullRequest 6 None ["bug"] [] [commit "c4" (Some (user "cyd" 3))]].

(** The parser of a task without cutoff, with the given label regexps and
    account conversion. *)
Definition parseWith
    (convert : github_graphql.GraphqlInlineAccountQuery.t -> Z -> Z ->
               string * option error)
    (typeRe componentRe : option github_graphql.Regexp)
    (prs : list github_graphql.GraphqlQueryPr.t)
  : Outcome (list (github_graphql.Entity string) * option error) :=
  github_graphql.ResponseParser string convert
    (githubData "apache/incubator-devlake" None) typeRe componentRe (page prs).

Definition cursorPage (cursor : option string) (size : Z)
  : github_graphql.GraphqlRequestData.t :=
  {| github_graphql.GraphqlRequestData.Pager :=
       {| github_graphql.CursorPager.SkipCursor := cursor;
          github_graphql.CursorPager.Size := size |} |}.

(** A task whose transformation rule holds the given patterns. *)
Definition ruledData (prType prComponent : string)
  : github_graphql.GithubTaskData.t :=
  {| github_graphql.GithubTaskData.Options :=
       {| github_graphql.GithubOptions.ConnectionId := 1;
          github_graphql.GithubOptions.Name := "apache/incubator-devlake";
          github_graphql.GithubOptions.GithubId := 42;
          github_graphql.GithubOptions.GithubTransformationRule :=
            Some {| github_graphql.TransformationRules.PrType := prType;
                    github_graphql.TransformationRules.PrComponent :=
                      prComponent |} |};
     github_graphql.GithubTaskData.CreatedDateAfter := None |}.

End sample.

(** ** Theorems *)

Example Format_date_epoch : Format_date 0 (FixedZone 0) = "1970-01-01".
Proof. reflexivity. Qed.

Example Format_date_cst :
  Format_date 1700000000 sample.cst = "2023-11-15".
Proof. vm_compute. reflexivity. Qed.

Example Format_date_leap_day :
  Format_date 1709164800 (FixedZone 0) = "2024-02-29".
Proof. vm_compute. reflexivity. Qed.

Example Split_owner_name :
  Split "apache/incubator-devlake" "/" = ["apache"; "incubator-devlake"].
Proof. reflexivity. Qed.

Example Split_no_separator : Split "devlake" "/" = ["devlake"].
Proof. reflexivity. Qed.

Example unmarshal_fullTeam :
  sample.unmarshal sample.fullTeam opsgenie.raw_Team.zero
  = ({| opsgenie.raw_Team.Id := Some "t1";
        opsgenie.raw_Team.Name := Some "ops";
        opsgenie.raw_Team.Description := Some "on call" |}, None).
Proof. vm_compute. reflexivity. Qed.

Example unmarshal_brokenTeam :
  (sample.unmarshal sample.brokenTeam opsgenie.raw_Team.zero).2
  = Some (ErrOther "json: malformed object").
Proof. vm_compute. reflexivity. Qed.

Example parse_newestFirst_cutoff3 :
  sample.stagedTimes <$>
    (match sample.parse (Some 3) sample.newestFirst with
     | Return (results, _) => Some results
     | Panic => None
     end) = Some [5; 4].
Proof. vm_compute. reflexivity. Qed.

(** *** The incremental filter of the worklog collector *)

(** The value of the [created] parameter of a request, if it has one. *)
Lemma Values_Set_lookup (query : gmap string (list string)) (key value : string) :
  Values_Set query key value !! key = Some [value].
Proof. unfold Values_Set. apply lookup_insert_eq. Qed.

Lemma Values_Set_lookup_ne (query : gmap string (list string))
    (key key' value : string) :
  key ≠ key' -> Values_Set query key value !! key' = query !! key'.
Proof. intros Hne. unfold Values_Set. by apply lookup_insert_ne. Qed.

(** Outside incremental mode the request carries the caller's cutoff, or
    no [created] filter at all. *)
Lemma Query_not_incremental (data : tapd.TapdTaskData)
    (m : helper.ApiCollectorStateManager) (reqData : helper.RequestData) :
  exists query,
    tapd.Query data false m reqData = Return (query, None)
    /\ query !! "created"
       = (fun c => [tapd.createdAfter data c]) <$> tapd.CreatedDateAfter data.
Proof.
  unfold tapd.Query. eexists. split; [reflexivity |].
  destruct (tapd.CreatedDateAfter data) as [c |]; simpl.
  - apply Values_Set_lookup.
  - by rewrite !Values_Set_lookup_ne, lookup_empty.
Qed.

(** In incremental mode the filter set from the caller's cutoff is
    overwritten by the one set from the recorded start. *)
Lemma Query_incremental (data : tapd.TapdTaskData)
    (m : helper.ApiCollectorStateManager) (reqData : helper.RequestData)
    (l : Time) :
  helper.LatestSuccessStart (helper.LatestState m) = Some l ->
  exists query,
    tapd.Query data true m reqData = Return (query, None)
    /\ query !! "created" = Some [tapd.createdAfter data l].
Proof.
  intros Hl. unfold tapd.Query. rewrite Hl. eexists. split; [reflexivity |].
  apply Values_Set_lookup.
Qed.




(** *** The response parser of the pull-request collector *)

Lemma after_after {A B : Type} (xs ys : list A) (m : Exec (list A * B)) :
  after xs (after ys m) = after (xs ++ ys) m.
Proof. destruct m as [| e | [produced b]]; simpl; by rewrite ?app_assoc. Qed.

Lemma appended_appended {A : Type} (xs ys : list A) (m : Exec (list A)) :
  appended xs (appended ys m) = appended (xs ++ ys) m.
Proof. destruct m as [| e | produced]; simpl; by rewrite ?app_assoc. Qed.

Lemma check_convertGithubPullRequest (pull : github_graphql.GraphqlQueryPr.t)
    (connId repoId : Z) :
  check (github_graphql.convertGithubPullRequest pull connId repoId)
  = Done (github_graphql.convertGithubPullRequest pull connId repoId).1.
Proof. reflexivity. Qed.

Lemma check_convertPullRequestCommit (c : github_graphql.GraphqlQueryCommit.t) :
  check (github_graphql.convertPullRequestCommit c)
  = Done (github_graphql.convertPullRequestCommit c).1.
Proof. reflexivity. Qed.

#[local] Arguments github_graphql.convertGithubPullRequest : simpl never.
#[local] Arguments github_graphql.convertPullRequestCommit : simpl never.

Ltac exec_simpl :=
  unfold mbind, Exec_bind, bind, check, run in *; simpl in *.

Section PrParser.

Variable GithubAccount : Type.
Variable convertGraphqlPreAccount :
  github_graphql.GraphqlInlineAccountQuery.t -> Z -> Z ->
  GithubAccount * option error.
Variable data : github_graphql.GithubTaskData.t.
Variable labelTypeRegex : option github_graphql.Regexp.
Variable labelComponentRegex : option github_graphql.Regexp.

Local Abbreviation Entity := (github_graphql.Entity GithubAccount).
Local Abbreviation labelsLoop :=
  (github_graphql.labelsLoop GithubAccount data labelTypeRegex
     labelComponentRegex).
Local Abbreviation reviewBody :=
  (github_graphql.reviewBody GithubAccount convertGraphqlPreAccount data).
Local Abbreviation reviewsLoop :=
  (github_graphql.reviewsLoop GithubAccount convertGraphqlPreAccount data).
Local Abbreviation commitsLoop :=
  (github_graphql.commitsLoop GithubAccount convertGraphqlPreAccount data).
Local Abbreviation prBody :=
  (github_graphql.prBody GithubAccount convertGraphqlPreAccount data
     labelTypeRegex labelComponentRegex).
Local Abbreviation prsLoop :=
  (github_graphql.prsLoop GithubAccount convertGraphqlPreAccount data
     labelTypeRegex labelComponentRegex).
Local Abbreviation ResponseParser :=
  (github_graphql.ResponseParser GithubAccount convertGraphqlPreAccount data
     labelTypeRegex labelComponentRegex).
Local Abbreviation unitsOf :=
  (unitsOf GithubAccount convertGraphqlPreAccount data labelTypeRegex
     labelComponentRegex).
Local Abbreviation unitsOfAll :=
  (unitsOfAll GithubAccount convertGraphqlPreAccount data labelTypeRegex
     labelComponentRegex).
Local Abbreviation reached := (reached data).

(** Each loop only appends to the results it is given. *)
Lemma labelsLoop_after (labels : list github_graphql.LabelNode.t)
    (results : list Entity) (githubPr : github_graphql.GithubPullRequest.t) :
  labelsLoop labels results githubPr
  = after results (labelsLoop labels [] githubPr).
Proof.
  revert results githubPr.
  induction labels as [| label labels IH]; intros results githubPr; simpl.
  - by rewrite app_nil_r.
  - destruct (github_graphql.applyLabelRegex labelTypeRegex _ _ githubPr)
      as [| e | pr1]; exec_simpl; try done.
    destruct (github_graphql.applyLabelRegex labelComponentRegex _ _ pr1)
      as [| e | pr2]; exec_simpl; try done.
    rewrite IH. rewrite (IH [_]). by rewrite after_after.
Qed.

Lemma reviewBody_appended (rv : github_graphql.GraphqlQueryReview.t)
    (results : list Entity) (githubPr : github_graphql.GithubPullRequest.t) :
  reviewBody rv results githubPr = appended results (reviewBody rv [] githubPr).
Proof.
  unfold github_graphql.reviewBody.
  destruct (github_graphql.GraphqlQueryReview.Author rv) as [author |]; simpl.
  - destruct (convertGraphqlPreAccount author _ _) as [user [e |]];
      exec_simpl; [done |].
    by rewrite <- !app_assoc.
  - by rewrite <- !app_assoc.
Qed.

Lemma reviewsLoop_appended (reviews : list github_graphql.GraphqlQueryReview.t)
    (results : list Entity) (githubPr : github_graphql.GithubPullRequest.t) :
  reviewsLoop reviews results githubPr
  = appended results (reviewsLoop reviews [] githubPr).
Proof.
  revert results.
  induction reviews as [| rv reviews IH]; intros results; simpl.
  - by rewrite app_nil_r.
  - case_bool_decide; [| apply IH].
    rewrite reviewBody_appended.
    destruct (reviewBody rv [] githubPr) as [| e | produced]; exec_simpl;
      try done.
    rewrite IH, (IH produced). by rewrite appended_appended.
Qed.

Lemma commitsLoop_appended (commits : list github_graphql.GraphqlQueryCommit.t)
    (results : list Entity) (githubPr : github_graphql.GithubPullRequest.t) :
  commitsLoop commits results githubPr
  = appended results (commitsLoop commits [] githubPr).
Proof.
  revert results.
  induction commits as [| c commits IH]; intros results; simpl.
  - by rewrite app_nil_r.
  - change (github_graphql.convertPullRequestCommit c)
      with ((github_graphql.convertPullRequestCommit c).1, @None error).
    exec_simpl.
    destruct (github_graphql.GraphqlQueryCommit.Commit_Author_User c)
      as [user |].
    + destruct (convertGraphqlPreAccount user _ _) as [githubUser [e |]];
        [done |].
      rewrite IH. rewrite (IH [_; _; _]).
      rewrite appended_appended. by rewrite <- !app_assoc.
    + rewrite IH. rewrite (IH [_; _]).
      rewrite appended_appended. by rewrite <- !app_assoc.
Qed.

Lemma prBody_appended (rawL : github_graphql.GraphqlQueryPr.t)
    (results : list Entity) :
  prBody rawL results = appended results (unitsOf rawL).
Proof.
  unfold unitsOf, github_graphql.prBody.
  rewrite check_convertGithubPullRequest. exec_simpl.
  assert (Htail : forall acc pr,
    match reviewsLoop (github_graphql.GraphqlQueryPr.Reviews_Nodes rawL)
            (acc ++ [github_graphql.PullRequestOf pr]) pr with
    | Panicked => Panicked
    | Failed e => Failed e
    | Done a =>
        commitsLoop (github_graphql.GraphqlQueryPr.Commits_Nodes rawL) a pr
    end
    = appended acc
        match reviewsLoop (github_graphql.GraphqlQueryPr.Reviews_Nodes rawL)
                [github_graphql.PullRequestOf pr] pr with
        | Panicked => Panicked
        | Failed e => Failed e
        | Done a =>
            commitsLoop (github_graphql.GraphqlQueryPr.Commits_Nodes rawL) a pr
        end).
  { intros acc pr. rewrite reviewsLoop_appended.
    rewrite (reviewsLoop_appended _ [_]).
    destruct (reviewsLoop _ [] pr) as [| e | produced]; simpl; try done.
    rewrite commitsLoop_appended.
    rewrite (commitsLoop_appended _ (_ :: _)).
    rewrite appended_appended. by rewrite <- !app_assoc. }
  destruct (github_graphql.GraphqlQueryPr.Author rawL) as [author |].
  - destruct (convertGraphqlPreAccount author _ _) as [githubUser [e |]];
      [done |].
    rewrite labelsLoop_after. rewrite (labelsLoop_after _ [_]).
    destruct (labelsLoop _ [] _) as [| e | [produced pr]]; simpl; try done.
    rewrite Htail.
    pose proof (Htail (github_graphql.AccountOf githubUser :: produced) pr)
      as Hhere.
    simpl in Hhere. rewrite Hhere.
    rewrite appended_appended. by rewrite <- !app_assoc.
  - rewrite labelsLoop_after.
    destruct (labelsLoop _ [] _) as [| e | [produced pr]]; simpl; try done.
    rewrite Htail, (Htail produced). by rewrite appended_appended.
Qed.

(** The loop over the page visits the records it reaches one by one and
    concatenates what each of them produces. *)
Lemma prsLoop_reached (prs : list github_graphql.GraphqlQueryPr.t)
    (results : list Entity) :
  prsLoop prs results
  = match unitsOfAll (reached prs) with
    | Panicked => Panicked
    | Failed e => Failed e
    | Done us =>
        Done (results ++ concat us, existsb (github_graphql.pastCutoff data) prs)
    end.
Proof.
  revert results.
  induction prs as [| rawL prs IH]; intros results; simpl.
  - by rewrite app_nil_r.
  - destruct (github_graphql.pastCutoff data rawL); simpl.
    + by rewrite app_nil_r.
    + rewrite prBody_appended.
      destruct (unitsOf rawL) as [| e | u]; exec_simpl; try done.
      rewrite IH.
      destruct (unitsOfAll (reached prs)) as [| e | us]; simpl; try done.
      by rewrite app_assoc.
Qed.

Lemma ResponseParser_reached (query : github_graphql.GraphqlQueryPrWrapper.t) :
  ResponseParser query
  = match unitsOfAll (reached (github_graphql.GraphqlQueryPrWrapper.Prs query)) with
    | Panicked => Panic
    | Failed e => Return ([], Some e)
    | Done us =>
        Return
          (concat us,
           if existsb (github_graphql.pastCutoff data)
                (github_graphql.GraphqlQueryPrWrapper.Prs query)
           then Some ErrFinishCollect else None)
    end.
Proof.
  unfold github_graphql.ResponseParser. rewrite prsLoop_reached.
  destruct (unitsOfAll _) as [| e | us]; simpl; try done.
  by destruct (existsb _ _).
Qed.

Lemma unitsOfAll_Done (prs : list github_graphql.GraphqlQueryPr.t)
    (us : list (list Entity)) :
  unitsOfAll prs = Done us <->
  Forall2 (fun rawL u => unitsOf rawL = Done u) prs us.
Proof.
  revert us. induction prs as [| rawL prs IH]; intros us; simpl.
  - split.
    + intros [= <-]. constructor.
    + intros H. by inversion H.
  - split.
    + intros H. destruct (unitsOf rawL) as [| e | u] eqn:Hu; exec_simpl;
        try done.
      destruct (unitsOfAll prs) as [| e | us'] eqn:Hus; try done.
      injection H as <-. constructor; [done |]. by apply IH.
    + intros H. inversion H as [| ? u ? us' Hu Hrest]; subst.
      rewrite Hu. exec_simpl. apply IH in Hrest. by rewrite Hrest.
Qed.

Lemma reached_prefix (prs : list github_graphql.GraphqlQueryPr.t) :
  reached prs `prefix_of` prs.
Proof.
  induction prs as [| rawL prs IH]; simpl; [done |].
  destruct (github_graphql.pastCutoff data rawL).
  - apply prefix_nil.
  - by apply prefix_cons.
Qed.

Lemma reached_all (prs : list github_graphql.GraphqlQueryPr.t) :
  existsb (github_graphql.pastCutoff data) prs = false -> reached prs = prs.
Proof.
  induction prs as [| rawL prs IH]; simpl; [done |].
  destruct (github_graphql.pastCutoff data rawL); simpl; [done |].
  intros H. by rewrite IH.
Qed.


Lemma reached_app_past (before after : list github_graphql.GraphqlQueryPr.t)
    (trigger : github_graphql.GraphqlQueryPr.t) :
  Forall (fun rawL => github_graphql.pastCutoff data rawL = false) before ->
  github_graphql.pastCutoff data trigger = true ->
  reached (before ++ trigger :: after) = before
  /\ existsb (github_graphql.pastCutoff data) (before ++ trigger :: after) = true.
Proof.
  intros Hb Ht. induction Hb as [| rawL before Hr _ IH]; simpl.
  - by rewrite Ht.
  - rewrite Hr. destruct IH as [-> ->]. done.
Qed.

(** The units of an earlier record come before those of a later one in a
    concatenation. *)
Lemma concat_in_order {A : Type} (us : list (list A)) (i j : nat)
    (ui uj : list A) :
  (i < j)%nat -> us !! i = Some ui -> us !! j = Some uj ->
  exists front between back,
    concat us = front ++ ui ++ between ++ uj ++ back.
Proof.
  intros Hij Hi Hj.
  rewrite <- (take_drop_middle us i ui Hi).
  assert (Hj' : drop (S i) us !! (j - S i)%nat = Some uj).
  { rewrite lookup_drop. rewrite <- Hj. f_equal. lia. }
  rewrite <- (take_drop_middle _ _ uj Hj').
  exists (concat (take i us)),
         (concat (take (j - S i) (drop (S i) us))),
         (concat (drop (S (j - S i)) (drop (S i) us))).
  rewrite concat_app. simpl. rewrite concat_app. simpl. done.
Qed.


(** What one record contributes: the account of its author if it has one,
    its labels, the pull request itself, its reviews, its commits. *)
Lemma unitsOf_Done (rawL : github_graphql.GraphqlQueryPr.t) (u : list Entity) :
  unitsOf rawL = Done u ->
  exists accounts labels githubPr reviews commits,
    Forall (fun e => exists a, e = github_graphql.AccountOf a) accounts
    /\ labelsLoop (github_graphql.GraphqlQueryPr.Labels_Nodes rawL) []
         (github_graphql.convertGithubPullRequest rawL
            (github_graphql.ConnectionId data) (github_graphql.GithubId data)).1
       = Done (labels, githubPr)
    /\ reviewsLoop (github_graphql.GraphqlQueryPr.Reviews_Nodes rawL) [] githubPr
       = Done reviews
    /\ commitsLoop (github_graphql.GraphqlQueryPr.Commits_Nodes rawL) [] githubPr
       = Done commits
    /\ u = accounts ++ labels ++ [github_graphql.PullRequestOf githubPr]
             ++ reviews ++ commits.
Proof.
  unfold unitsOf, github_graphql.prBody.
  rewrite check_convertGithubPullRequest.
  set (pr0 := (github_graphql.convertGithubPullRequest rawL
                 (github_graphql.ConnectionId data)
                 (github_graphql.GithubId data)).1).
  exec_simpl.
  assert (Hgoal : forall accounts,
    Forall (fun e => exists a, e = github_graphql.AccountOf a) accounts ->
    match labelsLoop (github_graphql.GraphqlQueryPr.Labels_Nodes rawL)
            accounts pr0 with
    | Panicked => Panicked
    | Failed e => Failed e
    | Done (results, githubPr) =>
        match reviewsLoop (github_graphql.GraphqlQueryPr.Reviews_Nodes rawL)
                (results ++ [github_graphql.PullRequestOf githubPr]) githubPr with
        | Panicked => Panicked
        | Failed e => Failed e
        | Done a =>
            commitsLoop (github_graphql.GraphqlQueryPr.Commits_Nodes rawL) a
              githubPr
        end
    end = Done u ->
    exists accounts labels githubPr reviews commits,
      Forall (fun e => exists a, e = github_graphql.AccountOf a) accounts
      /\ labelsLoop (github_graphql.GraphqlQueryPr.Labels_Nodes rawL) [] pr0
         = Done (labels, githubPr)
      /\ reviewsLoop (github_graphql.GraphqlQueryPr.Reviews_Nodes rawL) []
           githubPr = Done reviews
      /\ commitsLoop (github_graphql.GraphqlQueryPr.Commits_Nodes rawL) []
           githubPr = Done commits
      /\ u = accounts ++ labels ++ [github_graphql.PullRequestOf githubPr]
               ++ reviews ++ commits).
  { intros accounts Hacc. rewrite labelsLoop_after.
    destruct (labelsLoop _ [] pr0) as [| e | [labels githubPr]] eqn:Hlab;
      simpl; try done.
    rewrite reviewsLoop_appended.
    destruct (reviewsLoop _ [] githubPr) as [| e | reviews] eqn:Hrev; simpl;
      try done.
    rewrite commitsLoop_appended.
    destruct (commitsLoop _ [] githubPr) as [| e | commits] eqn:Hcom; simpl;
      try done.
    intros [= <-]. exists accounts, labels, githubPr, reviews, commits.
    repeat split; try done. rewrite <- !app_assoc. done. }
  destruct (github_graphql.GraphqlQueryPr.Author rawL) as [author |].
  - destruct (convertGraphqlPreAccount author _ _) as [githubUser [e |]];
      [done |].
    apply (Hgoal [_]). repeat constructor. by eexists.
  - apply (Hgoal []). constructor.
Qed.

(** The label loop leaves the pull request's id and creation time alone
    and produces label records only. *)
Lemma applyLabelRegex_Done (re : option github_graphql.Regexp) (name : string)
    (set : string -> github_graphql.GithubPullRequest.t ->
           github_graphql.GithubPullRequest.t)
    (githubPr githubPr' : github_graphql.GithubPullRequest.t) :
  github_graphql.applyLabelRegex re name set githubPr = Done githubPr' ->
  githubPr' = githubPr \/ exists v, githubPr' = set v githubPr.
Proof.
  unfold github_graphql.applyLabelRegex.
  destruct re as [find |]; [| intros [= <-]; by left].
  case_bool_decide; [| intros [= <-]; by left].
  destruct (index (find name) 1) as [| g]; exec_simpl; [done |].
  intros [= <-]. right. by eexists.
Qed.

Lemma labelsLoop_Done (labels : list github_graphql.LabelNode.t)
    (githubPr githubPr' : github_graphql.GithubPullRequest.t)
    (produced : list Entity) :
  labelsLoop labels [] githubPr = Done (produced, githubPr') ->
  github_graphql.GithubPullRequest.GithubId githubPr'
  = github_graphql.GithubPullRequest.GithubId githubPr
  /\ github_graphql.GithubPullRequest.GithubCreatedAt githubPr'
     = github_graphql.GithubPullRequest.GithubCreatedAt githubPr
  /\ Forall (fun e => exists l, e = github_graphql.PrLabelOf l) produced.
Proof.
  revert githubPr produced.
  induction labels as [| label labels IH]; intros githubPr produced; simpl.
  - intros [= <- <-]. repeat split. constructor.
  - destruct (github_graphql.applyLabelRegex labelTypeRegex _ _ githubPr)
      as [| e | pr1] eqn:H1; exec_simpl; try done.
    destruct (github_graphql.applyLabelRegex labelComponentRegex _ _ pr1)
      as [| e | pr2] eqn:H2; exec_simpl; try done.
    rewrite labelsLoop_after.
    destruct (labelsLoop labels [] pr2) as [| e | [rest pr3]] eqn:H3; simpl;
      try done.
    intros [= <- <-].
    destruct (IH _ _ H3) as (Hid & Hat & Hall).
    assert (github_graphql.GithubPullRequest.GithubId pr2
            = github_graphql.GithubPullRequest.GithubId githubPr
            /\ github_graphql.GithubPullRequest.GithubCreatedAt pr2
               = github_graphql.GithubPullRequest.GithubCreatedAt githubPr)
      as [Hid2 Hat2].
    { apply applyLabelRegex_Done in H1, H2.
      destruct H1 as [-> | [v1 ->]], H2 as [-> | [v2 ->]]; by simpl. }
    repeat split; [congruence | congruence |].
    constructor; [by eexists | done].
Qed.

(** Projections of results that hold records of one kind only. *)
Lemma accounts_only (results : list Entity) :
  Forall (fun e => exists a, e = github_graphql.AccountOf a) results ->
  pullRequestsIn results = [] /\ reviewsIn results = []
  /\ reviewersIn results = [].
Proof.
  induction 1 as [| e results [a ->] _ IH]; [done |].
  destruct IH as (? & ? & ?). by repeat split.
Qed.

Lemma labels_only (results : list Entity) :
  Forall (fun e => exists l, e = github_graphql.PrLabelOf l) results ->
  pullRequestsIn results = [] /\ reviewsIn results = []
  /\ reviewersIn results = [].
Proof.
  induction 1 as [| e results [l ->] _ IH]; [done |].
  destruct IH as (? & ? & ?). by repeat split.
Qed.

Lemma commitsLoop_Done (commits : list github_graphql.GraphqlQueryCommit.t)
    (githubPr : github_graphql.GithubPullRequest.t) (produced : list Entity) :
  commitsLoop commits [] githubPr = Done produced ->
  pullRequestsIn produced = [] /\ reviewsIn produced = []
  /\ reviewersIn produced = [].
Proof.
  revert produced.
  induction commits as [| c commits IH]; intros produced; simpl.
  - by intros [= <-].
  - change (github_graphql.convertPullRequestCommit c)
      with ((github_graphql.convertPullRequestCommit c).1, @None error).
    exec_simpl.
    destruct (github_graphql.GraphqlQueryCommit.Commit_Author_User c)
      as [user |].
    + destruct (convertGraphqlPreAccount user _ _) as [githubUser [e |]];
        [done |].
      rewrite commitsLoop_appended.
      destruct (commitsLoop commits [] githubPr) as [| e | rest] eqn:Hrest;
        simpl; try done.
      intros [= <-]. destruct (IH _ eq_refl) as (H1 & H2 & H3).
      repeat split; [exact H1 | exact H2 | exact H3].
    + rewrite commitsLoop_appended.
      destruct (commitsLoop commits [] githubPr) as [| e | rest] eqn:Hrest;
        simpl; try done.
      intros [= <-]. destruct (IH _ eq_refl) as (H1 & H2 & H3).
      repeat split; [exact H1 | exact H2 | exact H3].
Qed.

(** The review loop produces a reviewer and a review record for each
    review that is not pending, in the order of the reviews, and nothing
    for a pending one. *)
Lemma reviewsLoop_Done (rawL : github_graphql.GraphqlQueryPr.t)
    (reviews : list github_graphql.GraphqlQueryReview.t)
    (githubPr : github_graphql.GithubPullRequest.t) (produced : list Entity) :
  github_graphql.GithubPullRequest.GithubId githubPr
  = github_graphql.GraphqlQueryPr.DatabaseId rawL ->
  reviewsLoop reviews [] githubPr = Done produced ->
  pullRequestsIn produced = []
  /\ reviewsIn produced
     = reviewRecord data rawL <$>
         filter (fun rv => github_graphql.GraphqlQueryReview.State rv ≠ "PENDING")
           reviews
  /\ reviewersIn produced
     = reviewerRecord data rawL <$>
         filter (fun rv => github_graphql.GraphqlQueryReview.State rv ≠ "PENDING")
           reviews.
Proof.
  intros Hid. revert produced.
  induction reviews as [| rv reviews IH]; intros produced; simpl.
  - by intros [= <-].
  - rewrite filter_cons. case_bool_decide as Hstate.
    + rewrite decide_True by done.
      destruct (reviewBody rv [] githubPr) as [| e | mine] eqn:Hmine;
        exec_simpl; try done.
      rewrite reviewsLoop_appended.
      destruct (reviewsLoop reviews [] githubPr) as [| e | rest] eqn:Hrest;
        simpl; try done.
      intros [= <-]. destruct (IH _ eq_refl) as (Hp & Hr & Hw).
      unfold pullRequestsIn, reviewsIn, reviewersIn in *.
      rewrite !omap_app, Hp, Hr, Hw.
      unfold github_graphql.reviewBody in Hmine.
      unfold reviewRecord, reviewerRecord.
      rewrite <- Hid.
      destruct (github_graphql.GraphqlQueryReview.Author rv) as [author |].
      * destruct (convertGraphqlPreAccount author _ _) as [user [e |]];
          exec_simpl; [done |].
        injection Hmine as <-. by simpl.
      * injection Hmine as <-. by simpl.
    + rewrite decide_False by (intros H; exact (H Hstate)).
      apply IH.
Qed.

(** What one record produces, read kind by kind. *)
Lemma unitsOf_kinds (rawL : github_graphql.GraphqlQueryPr.t) (u : list Entity) :
  unitsOf rawL = Done u ->
  (exists githubPr,
     pullRequestsIn u = [githubPr]
     /\ github_graphql.GithubPullRequest.GithubId githubPr
        = github_graphql.GraphqlQueryPr.DatabaseId rawL
     /\ github_graphql.GithubPullRequest.GithubCreatedAt githubPr
        = github_graphql.GraphqlQueryPr.CreatedAt rawL)
  /\ reviewsIn u = reviewRecord data rawL <$> submitted rawL
  /\ reviewersIn u = reviewerRecord data rawL <$> submitted rawL.
Proof.
  intros Hu.
  destruct (unitsOf_Done rawL u Hu)
    as (accounts & labels & githubPr & reviews & commits
        & Hacc & Hlab & Hrev & Hcom & ->).
  apply accounts_only in Hacc as (Ha1 & Ha2 & Ha3).
  apply labelsLoop_Done in Hlab as (Hid & Hat & Hlabels).
  apply labels_only in Hlabels as (Hl1 & Hl2 & Hl3).
  apply commitsLoop_Done in Hcom as (Hc1 & Hc2 & Hc3).
  apply (reviewsLoop_Done rawL) in Hrev as (Hr1 & Hr2 & Hr3); [| by rewrite Hid].
  unfold pullRequestsIn, reviewsIn, reviewersIn in *.
  rewrite !omap_app. simpl.
  rewrite Ha1, Ha2, Ha3, Hl1, Hl2, Hl3, Hc1, Hc2, Hc3, Hr1, Hr2, Hr3. simpl.
  rewrite !app_nil_r. split; [| done].
  exists githubPr. by rewrite Hid, Hat.
Qed.

Lemma unitsOfAll_kinds (prs : list github_graphql.GraphqlQueryPr.t)
    (us : list (list Entity)) :
  Forall2 (fun rawL u => unitsOf rawL = Done u) prs us ->
  github_graphql.GithubPullRequest.GithubCreatedAt <$> pullRequestsIn (concat us)
  = github_graphql.GraphqlQueryPr.CreatedAt <$> prs
  /\ reviewsIn (concat us)
     = concat ((fun rawL => reviewRecord data rawL <$> submitted rawL) <$> prs)
  /\ reviewersIn (concat us)
     = concat ((fun rawL => reviewerRecord data rawL <$> submitted rawL) <$> prs).
Proof.
  induction 1 as [| rawL u prs us Hu _ IH]; [done |].
  destruct IH as (IHp & IHr & IHw).
  destruct (unitsOf_kinds rawL u Hu) as ((githubPr & Hp & _ & Hat) & Hr & Hw).
  unfold pullRequestsIn, reviewsIn, reviewersIn in *.
  simpl. rewrite !omap_app, fmap_app.
  rewrite Hp, Hr, Hw, IHp, IHr, IHw. simpl. by rewrite Hat.
Qed.

(** The two ways in which the parser returns. *)
Lemma ResponseParser_Return (query : github_graphql.GraphqlQueryPrWrapper.t)
    (results : list Entity) (err : option error) :
  ResponseParser query = Return (results, err) ->
  (exists e,
     unitsOfAll (reached (github_graphql.GraphqlQueryPrWrapper.Prs query))
       = Failed e
     /\ results = [] /\ err = Some e)
  \/ (exists us,
        Forall2 (fun rawL u => unitsOf rawL = Done u)
          (reached (github_graphql.GraphqlQueryPrWrapper.Prs query)) us
        /\ results = concat us
        /\ err = if existsb (github_graphql.pastCutoff data)
                      (github_graphql.GraphqlQueryPrWrapper.Prs query)
                 then Some ErrFinishCollect else None).
Proof.
  rewrite ResponseParser_reached.
  destruct (unitsOfAll _) as [| e | us] eqn:Hus; [done | |].
  - intros [= <- <-]. left. by exists e.
  - intros [= <- <-]. right. exists us. by rewrite <- unitsOfAll_Done.
Qed.

Lemma pastCutoff_false (c : Time) (rawL : github_graphql.GraphqlQueryPr.t) :
  github_graphql.GithubTaskData.CreatedDateAfter data = Some c ->
  github_graphql.pastCutoff data rawL = false
  <-> c < github_graphql.GraphqlQueryPr.CreatedAt rawL.
Proof.
  intros Hc. unfold github_graphql.pastCutoff, Before. rewrite Hc.
  rewrite negb_false_iff. apply Z.ltb_lt.
Qed.


(** C6.  Within one page the parser's results keep the order of the
    records: the results are the concatenation, in page order, of what each
    processed record produces (the processed records being a prefix of the
    page, and the whole page when the parser returns no error), so for two
    records at positions [i < j] every unit of the first comes before every
    unit of the second. *)
Theorem ResponseParser_preserves_page_order
    (query : github_graphql.GraphqlQueryPrWrapper.t)
    (results : list Entity) (err : option error) :
  ResponseParser query = Return (results, err) ->
  exists processed us,
    processed `prefix_of` github_graphql.GraphqlQueryPrWrapper.Prs query
    /\ (err = None -> processed = github_graphql.GraphqlQueryPrWrapper.Prs query)
    /\ Forall2 (fun rawL u => unitsOf rawL = Done u) processed us
    /\ results = concat us
    /\ forall (i j : nat) (ui uj : list Entity),
         (i < j)%nat -> us !! i = Some ui -> us !! j = Some uj ->
         exists front between back,
           results = front ++ ui ++ between ++ uj ++ back.
Proof.
  intros Hret.
  destruct (ResponseParser_Return query results err Hret)
    as [(e & _ & -> & ->) | (us & Hus & -> & ->)].
  - exists [], []. repeat split; [apply prefix_nil | done | constructor |].
    intros i j ui uj _ Hi. by rewrite lookup_nil in Hi.
  - exists (reached (github_graphql.GraphqlQueryPrWrapper.Prs query)), us.
    repeat split; [apply reached_prefix | | done |].
    + destruct (existsb _ _) eqn:Hex; [done |]. intros _. by apply reached_all.
    + intros i j ui uj. apply concat_in_order.
Qed.


(** C3.  When a page holds a record past the cutoff after records that are
    not, the parser returns every unit produced from the records before it,
    together with the early-finish signal, which the engine reads as
    [EarlyFinish] and not as a failure. *)
Theorem ResponseParser_early_finish_keeps_preceding
    (query : github_graphql.GraphqlQueryPrWrapper.t) (c : Time)
    (before after : list github_graphql.GraphqlQueryPr.t)
    (trigger : github_graphql.GraphqlQueryPr.t) (us : list (list Entity)) :
  github_graphql.GithubTaskData.CreatedDateAfter data = Some c ->
  github_graphql.GraphqlQueryPrWrapper.Prs query = before ++ trigger :: after ->
  Forall (fun rawL => c < github_graphql.GraphqlQueryPr.CreatedAt rawL) before ->
  github_graphql.GraphqlQueryPr.CreatedAt trigger <= c ->
  Forall2 (fun rawL u => unitsOf rawL = Done u) before us ->
  exists err,
    ResponseParser query = Return (concat us, err)
    /\ err = Some ErrFinishCollect
    /\ helper.pageSignal err = helper.EarlyFinish.
Proof.
  intros Hc Hprs Hbefore Htrigger Hus.
  assert (Hpast : github_graphql.pastCutoff data trigger = true).
  { destruct (github_graphql.pastCutoff data trigger) eqn:Hp; [done |].
    apply (pastCutoff_false c) in Hp; [lia | done]. }
  assert (Hfresh : Forall
      (fun rawL => github_graphql.pastCutoff data rawL = false) before).
  { eapply Forall_impl; [exact Hbefore |].
    intros rawL Hlt. by apply (pastCutoff_false c). }
  destruct (reached_app_past before after trigger Hfresh Hpast) as [Hr Hex].
  exists (Some ErrFinishCollect). split; [| done].
  rewrite ResponseParser_reached, Hprs, Hr, Hex.
  apply unitsOfAll_Done in Hus. by rewrite Hus.
Qed.

(** C10.  The review and reviewer records among the parser's results are
    exactly those of the reviews that are not ["PENDING"], record by record
    and review by review in page order, for the records the parser
    processed (a prefix of the page; the whole page when the parser returns
    no error; the records before the cutoff whenever anything is returned);
    no record is produced for a pending review. *)
Theorem ResponseParser_skips_pending_reviews
    (query : github_graphql.GraphqlQueryPrWrapper.t)
    (results : list Entity) (err : option error) :
  ResponseParser query = Return (results, err) ->
  exists processed,
    processed `prefix_of` github_graphql.GraphqlQueryPrWrapper.Prs query
    /\ (err = None -> processed = github_graphql.GraphqlQueryPrWrapper.Prs query)
    /\ (results ≠ [] ->
        processed = reached (github_graphql.GraphqlQueryPrWrapper.Prs query))
    /\ reviewsIn results
       = concat ((fun rawL => reviewRecord data rawL <$> submitted rawL) <$> processed)
    /\ reviewersIn results
       = concat ((fun rawL => reviewerRecord data rawL <$> submitted rawL)
                   <$> processed)
    /\ Forall (fun r => github_graphql.GithubPrReview.State r ≠ "PENDING")
         (reviewsIn results).
Proof.
  intros Hret.
  destruct (ResponseParser_Return query results err Hret)
    as [(e & _ & -> & ->) | (us & Hus & -> & ->)].
  - exists []. repeat split; [apply prefix_nil | done | done | constructor].
  - exists (reached (github_graphql.GraphqlQueryPrWrapper.Prs query)).
    destruct (unitsOfAll_kinds _ _ Hus) as (_ & Hr & Hw).
    repeat split; [apply reached_prefix | | done | done |].
    + destruct (existsb _ _) eqn:Hex; [done |]. intros _. by apply reached_all.
    + rewrite Hr. apply Forall_concat, Forall_fmap, Forall_forall.
      intros rawL _. apply Forall_fmap, Forall_forall. intros rv Hrv.
      unfold submitted in Hrv. apply list_elem_of_filter in Hrv. by destruct Hrv.
Qed.

End PrParser.

(** C6 on a page of two reviewed pull requests. *)
Lemma ResponseParser_preserves_page_order_witness :
  exists results err,
    sample.parse None sample.reviewed = Return (results, err)
    /\ exists processed us,
         processed `prefix_of` sample.reviewed
         /\ (err = None -> processed = sample.reviewed)
         /\ Forall2
              (fun rawL u =>
                 unitsOf string sample.convertAccount
                   (sample.githubData "apache/incubator-devlake" None)
                   None None rawL = Done u) processed us
         /\ results = concat us
         /\ forall (i j : nat) (ui uj : list (github_graphql.Entity string)),
              (i < j)%nat -> us !! i = Some ui -> us !! j = Some uj ->
              exists front between back,
                results = front ++ ui ++ between ++ uj ++ back.
Proof.
  eexists _, _. split; [vm_compute; reflexivity |].
  apply (ResponseParser_preserves_page_order string sample.convertAccount
           (sample.githubData "apache/incubator-devlake" None) None None
           (sample.page sample.reviewed)).
  vm_compute. reflexivity.
Defined.



(** C3 on the same page: the records created at 5 and 4 precede the
    trigger created at 3. *)
Lemma ResponseParser_early_finish_keeps_preceding_witness :
  exists err,
    sample.parse (Some 3) sample.newestFirst
      = Return (concat (sample.units (Some 3) (take 2 sample.newestFirst)), err)
    /\ err = Some ErrFinishCollect
    /\ helper.pageSignal err = helper.EarlyFinish.
Proof.
  apply (ResponseParser_early_finish_keeps_preceding string
           sample.convertAccount
           (sample.githubData "apache/incubator-devlake" (Some 3)) None None
           (sample.page sample.newestFirst) 3
           (take 2 sample.newestFirst) (drop 3 sample.newestFirst)
           (sample.pullRequest 3 [] [])).
  - reflexivity.
  - reflexivity.
  - repeat constructor.
  - vm_compute. discriminate.
  - repeat constructor.
Defined.

(** C10 on a page of two reviewed pull requests: of the three reviews the
    pending one leaves no record. *)
Lemma ResponseParser_skips_pending_reviews_witness :
  exists results err,
    sample.parse None sample.reviewed = Return (results, err)
    /\ (github_graphql.GithubPrReview.GithubId <$> reviewsIn results)
       = [11; 13]
    /\ (github_graphql.GithubReviewer.Login <$> reviewersIn results)
       = ["ann"; "cyd"]
    /\ exists processed,
         processed `prefix_of` sample.reviewed
         /\ (err = None -> processed = sample.reviewed)
         /\ reviewsIn results
            = concat
                ((fun rawL =>
                    reviewRecord
                      (sample.githubData "apache/incubator-devlake" None) rawL
                      <$> submitted rawL) <$> processed).
Proof.
  eexists _, _. split; [vm_compute; reflexivity |].
  split; [vm_compute; reflexivity |].
  split; [vm_compute; reflexivity |].
  destruct (ResponseParser_skips_pending_reviews string sample.convertAccount
              (sample.githubData "apache/incubator-devlake" None) None None
              (sample.page sample.reviewed) _ _ eq_refl)
    as (processed & Hprefix & Hall & _ & Hreviews & _).
  exists processed. repeat split; [exact Hprefix | exact Hall | exact Hreviews].
Defined.

(** *** The query builder of the pull-request collector *)

Lemma Split_nonempty (s : string) (sep : ascii) : Split s sep ≠ [].
Proof.
  destruct s as [| c rest]; simpl; [done |].
  case_decide; [done |]. by destruct (Split rest sep).
Qed.

(** Without a separator the string is its own single piece. *)
Lemma Split_without_separator (s : string) (sep : ascii) :
  occurs sep s = false -> Split s sep = [s].
Proof.
  induction s as [| c rest IH]; simpl; [done |].
  intros H. apply orb_false_iff in H as [Hc Hrest].
  apply bool_decide_eq_false in Hc. rewrite decide_False by done.
  by rewrite IH.
Qed.

(** With a separator there are at least two pieces. *)
Lemma Split_with_separator (s : string) (sep : ascii) :
  occurs sep s = true ->
  exists first second rest, Split s sep = first :: second :: rest.
Proof.
  induction s as [| c rest IH]; simpl; [done |].
  intros H. case_decide as Hc.
  - destruct (Split rest sep) as [| piece pieces] eqn:Hs.
    + by apply Split_nonempty in Hs.
    + by eexists _, _, _.
  - apply orb_true_iff in H as [H | H].
    + by apply bool_decide_eq_true in H.
    + destruct (IH H) as (first & second & pieces & ->). by eexists _, _, _.
Qed.

(** The pieces of [owner/name]. *)
Lemma Split_owner_and_name (owner name : string) (sep : ascii) :
  occurs sep owner = false -> occurs sep name = false ->
  Split (owner +:+ String sep name) sep = [owner; name].
Proof.
  intros Ho Hn. induction owner as [| c owner IH]; simpl.
  - rewrite decide_True by done. by rewrite Split_without_separator.
  - simpl in Ho. apply orb_false_iff in Ho as [Hc Ho].
    apply bool_decide_eq_false in Hc. rewrite decide_False by done.
    by rewrite IH.
Qed.

(** C9.  The query builder of the PR collector never returns an error: it
    panics exactly when the repository [Name] holds no ['/'], and otherwise
    returns the variables with the first two pieces of [Name] as owner and
    name; for a [Name] of the form [owner/name] these are its two parts. *)
Theorem BuildQuery_needs_separator (data : github_graphql.GithubTaskData.t)
    (reqData : github_graphql.GraphqlRequestData.t) :
  (occurs "/"
     (github_graphql.GithubOptions.Name (github_graphql.GithubTaskData.Options data))
   = false ->
   github_graphql.BuildQuery data reqData = Panic)
  /\ (occurs "/"
        (github_graphql.GithubOptions.Name
           (github_graphql.GithubTaskData.Options data)) = true ->
      exists owner name variables,
        github_graphql.BuildQuery data reqData
          = Return (github_graphql.GraphqlQueryPrWrapper.zero, variables, None)
        /\ Split
             (github_graphql.GithubOptions.Name
                (github_graphql.GithubTaskData.Options data)) "/" !! 0%nat
           = Some owner
        /\ Split
             (github_graphql.GithubOptions.Name
                (github_graphql.GithubTaskData.Options data)) "/" !! 1%nat
           = Some name
        /\ variables !! "owner" = Some (github_graphql.graphql_String owner)
        /\ variables !! "name" = Some (github_graphql.graphql_String name))
  /\ (forall owner name,
        occurs "/" owner = false -> occurs "/" name = false ->
        github_graphql.GithubOptions.Name
          (github_graphql.GithubTaskData.Options data)
        = owner +:+ String "/" name ->
        exists variables,
          github_graphql.BuildQuery data reqData
            = Return (github_graphql.GraphqlQueryPrWrapper.zero, variables, None)
          /\ variables !! "owner" = Some (github_graphql.graphql_String owner)
          /\ variables !! "name" = Some (github_graphql.graphql_String name)).
Proof.
  unfold github_graphql.BuildQuery.
  set (Name := github_graphql.GithubOptions.Name
                 (github_graphql.GithubTaskData.Options data)).
  split; [| split].
  - intros H. by rewrite (Split_without_separator _ _ H).
  - intros H.
    destruct (Split_with_separator _ _ H) as (first & second & rest & ->).
    exists first, second. eexists. split; [reflexivity |].
    split; [done |]. split; [done |]. split.
    + by rewrite lookup_insert_ne, lookup_insert_eq.
    + by rewrite lookup_insert_eq.
  - intros owner name Ho Hn ->. rewrite (Split_owner_and_name _ _ _ Ho Hn).
    eexists. split; [reflexivity |]. split.
    + by rewrite lookup_insert_ne, lookup_insert_eq.
    + by rewrite lookup_insert_eq.
Qed.

(** C9 on two task configurations: a bare repository name makes the
    builder panic, a name of the form [owner/name] does not. *)
Lemma BuildQuery_needs_separator_witness :
  github_graphql.BuildQuery (sample.githubData "incubator-devlake" None)
    {| github_graphql.GraphqlRequestData.Pager :=
         {| github_graphql.CursorPager.SkipCursor := None;
            github_graphql.CursorPager.Size := 30 |} |} = Panic
  /\ exists variables,
       github_graphql.BuildQuery
         (sample.githubData "apache/incubator-devlake" None)
         {| github_graphql.GraphqlRequestData.Pager :=
              {| github_graphql.CursorPager.SkipCursor := None;
                 github_graphql.CursorPager.Size := 30 |} |}
       = Return (github_graphql.GraphqlQueryPrWrapper.zero, variables, None)
       /\ variables !! "owner" = Some (github_graphql.graphql_String "apache")
       /\ variables !! "name"
          = Some (github_graphql.graphql_String "incubator-devlake").
Proof.
  split.
  - apply (BuildQuery_needs_separator
             (sample.githubData "incubator-devlake" None)). reflexivity.
  - apply (BuildQuery_needs_separator
             (sample.githubData "apache/incubator-devlake" None));
      reflexivity.
Defined.

(** *** The Opsgenie team extractor *)

Section TeamExtractor.

Variable json_Unmarshal :
  string -> opsgenie.raw_Team.t -> opsgenie.raw_Team.t * option error.
Variable RAW_TEAMS_TABLE : string.
Variable renderOptions : opsgenie.OpsgenieOptions -> string.
Variable newExtractorError : option error.

Local Abbreviation Extract := (opsgenie.Extract json_Unmarshal).
Local Abbreviation ExtractTeams :=
  (opsgenie.ExtractTeams json_Unmarshal RAW_TEAMS_TABLE renderOptions
     newExtractorError).

(** A payload that fails to decode makes the closure return the decoder's
    error. *)
Lemma Extract_decode_error (data : opsgenie.OpsgenieTaskData)
    (row : helper.RawData) (teamRaw : opsgenie.raw_Team.t) (e : error) :
  json_Unmarshal (helper.Data row) opsgenie.raw_Team.zero = (teamRaw, Some e) ->
  Extract data row = Return ([], Some e).
Proof. intros Hdecode. unfold opsgenie.Extract. by rewrite Hdecode. Qed.

(** C8.  What the [Extract] closure does with a row, by what the payload
    decodes to: a decoding error is returned as the closure's error; a
    payload that decodes but lacks [Id], [Name] or [Description] makes the
    closure panic instead of returning an error; with all three present it
    returns the one team record and no error. *)
Theorem Extract_panics_on_absent_field (data : opsgenie.OpsgenieTaskData)
    (row : helper.RawData) (teamRaw : opsgenie.raw_Team.t)
    (err : option error) :
  json_Unmarshal (helper.Data row) opsgenie.raw_Team.zero = (teamRaw, err) ->
  (forall e, err = Some e -> Extract data row = Return ([], Some e))
  /\ (err = None ->
      opsgenie.raw_Team.Id teamRaw = None
      \/ opsgenie.raw_Team.Name teamRaw = None
      \/ opsgenie.raw_Team.Description teamRaw = None ->
      Extract data row = Panic)
  /\ (err = None ->
      forall id name description,
        opsgenie.raw_Team.Id teamRaw = Some id ->
        opsgenie.raw_Team.Name teamRaw = Some name ->
        opsgenie.raw_Team.Description teamRaw = Some description ->
        Extract data row
        = Return
            ([{| opsgenie.Team.ConnectionId :=
                   opsgenie.ConnectionId (opsgenie.Options data);
                 opsgenie.Team.Id := id;
                 opsgenie.Team.Name := name;
                 opsgenie.Team.Description := description |}],
             None)).
Proof.
  intros Hdecode. split; [| split].
  - intros e ->. by apply (Extract_decode_error data row teamRaw).
  - unfold opsgenie.Extract. rewrite Hdecode.
    intros -> Hnil.
    destruct teamRaw as [[id |] [name |] [description |]]; simpl in *;
      try done.
    by destruct Hnil as [? | [? | ?]].
  - unfold opsgenie.Extract. rewrite Hdecode.
    intros -> id name description Hid Hname Hdescription.
    by rewrite Hid, Hname, Hdescription.
Qed.

(** A run of the row loop ends well only if no row's transform failed. *)
Lemma extractRows_Done {Typed : Type}
    (transform : helper.RawData -> Outcome (list Typed * option error))
    (rows : list helper.RawData) (produced out : list Typed) :
  helper.extractRows transform rows produced = Done out ->
  Forall (fun row => exists results, transform row = Return (results, None)) rows.
Proof.
  revert produced.
  induction rows as [| row rows IH]; intros produced; simpl; [constructor |].
  destruct (transform row) as [| [results [e |]]] eqn:Hrow; exec_simpl;
    try done.
  intros H. constructor; [by eexists | by eapply IH].
Qed.

Lemma extractRows_no_panic {Typed : Type}
    (transform : helper.RawData -> Outcome (list Typed * option error))
    (rows : list helper.RawData) (produced : list Typed) :
  Forall (fun row => transform row ≠ Panic) rows ->
  helper.extractRows transform rows produced ≠ Panicked.
Proof.
  intros Hrows. revert produced.
  induction Hrows as [| row rows Hrow _ IH]; intros produced; simpl; [done |].
  destruct (transform row) as [| [results [e |]]]; exec_simpl;
    first [done | apply IH].
Qed.

(** An extraction that reports an error leaves both tables as they
    were. *)
Lemma ExtractTeams_error_keeps_store (data : opsgenie.OpsgenieTaskData)
    (store store' : helper.ExtractorStore opsgenie.Team.t) (e : error) :
  ExtractTeams data store = Return (Some e, store') -> store' = store.
Proof.
  unfold opsgenie.ExtractTeams, helper.ExtractorExecute.
  destruct newExtractorError; [by intros [= _ <-] |].
  destruct (helper.extractRows _ _ _); [done | by intros [= _ <-] | done].
Qed.

(** C4.  If a raw record of the identity fails to decode, the extraction
    never ends in success: whenever it returns, it returns an error and
    both tables are as before the run, so the identity's earlier typed
    output is unchanged; and it does return, with the tables unchanged,
    when no row makes the transform panic. *)
Theorem ExtractTeams_all_or_nothing (data : opsgenie.OpsgenieTaskData)
    (store : helper.ExtractorStore opsgenie.Team.t)
    (rows : list helper.RawData) (row : helper.RawData) (e : error) :
  helper.rawRecords store
    !! (RAW_TEAMS_TABLE, renderOptions (opsgenie.Options data)) = Some rows ->
  row ∈ rows ->
  (json_Unmarshal (helper.Data row) opsgenie.raw_Team.zero).2 = Some e ->
  (forall err store',
     ExtractTeams data store = Return (err, store') ->
     is_Some err /\ store' = store)
  /\ (Forall (fun r => Extract data r ≠ Panic) rows ->
      exists e', ExtractTeams data store = Return (Some e', store)).
Proof.
  intros Hrows Hin Hdecode.
  assert (Hfail : Extract data row = Return ([], Some e)).
  { destruct (json_Unmarshal (helper.Data row) opsgenie.raw_Team.zero)
      as [teamRaw err] eqn:Hrow.
    simpl in Hdecode. subst err.
    by apply (Extract_decode_error data row teamRaw). }
  assert (Hnot : forall out,
    helper.extractRows (Extract data) rows [] ≠ Done out).
  { intros out Hout. apply extractRows_Done in Hout.
    rewrite Forall_forall in Hout. destruct (Hout row Hin) as [results Hok].
    rewrite Hfail in Hok. discriminate Hok. }
  split.
  - intros err store' Hrun. destruct err as [e' |].
    + split; [by eexists |]. by eapply ExtractTeams_error_keeps_store.
    + exfalso. revert Hrun.
      unfold opsgenie.ExtractTeams, helper.ExtractorExecute, helper.identity.
      simpl. destruct newExtractorError; [done |]. rewrite Hrows. simpl.
      destruct (helper.extractRows _ rows []) as [| e' | out] eqn:Hloop;
        [done | done |]. by destruct (Hnot out).
  - intros Hno.
    unfold opsgenie.ExtractTeams, helper.ExtractorExecute, helper.identity.
    simpl. destruct newExtractorError as [e' |]; [by eexists |].
    rewrite Hrows. simpl.
    pose proof (extractRows_no_panic (Extract data) rows [] Hno) as Hpanic.
    destruct (helper.extractRows _ rows []) as [| e' | out] eqn:Hloop.
    + by destruct Hpanic.
    + by eexists.
    + by destruct (Hnot out).
Qed.

End TeamExtractor.

(** C8 on a payload without a description. *)
Lemma Extract_panics_on_absent_field_witness :
  (sample.unmarshal sample.teamWithoutDescription opsgenie.raw_Team.zero).2 = None
  /\ opsgenie.Extract sample.unmarshal sample.teamsData
       {| helper.ID := 0; helper.Data := sample.teamWithoutDescription |} = Panic.
Proof.
  split; [vm_compute; reflexivity |].
  eapply (Extract_panics_on_absent_field sample.unmarshal sample.teamsData
            {| helper.ID := 0; helper.Data := sample.teamWithoutDescription |}).
  - vm_compute. reflexivity.
  - reflexivity.
  - right. right. reflexivity.
Defined.

(** C4 on three staged payloads of which the second is cut short: the
    extraction returns the decoder's error, and the team stored by the run
    before is still the identity's typed output. *)
Lemma ExtractTeams_all_or_nothing_witness :
  exists e',
    sample.extractTeams
      [sample.fullTeam; sample.brokenTeam; sample.fullTeam]
    = Return
        (Some e',
         sample.teamsStore [sample.fullTeam; sample.brokenTeam; sample.fullTeam])
    /\ helper.typedRecords
         (sample.teamsStore [sample.fullTeam; sample.brokenTeam; sample.fullTeam])
         !! sample.teamsIdentity = Some [sample.priorTeam].
Proof.
  destruct (ExtractTeams_all_or_nothing sample.unmarshal "_raw_opsgenie_teams"
              (fun o => Sprintf_v (opsgenie.ConnectionId o)) None
              sample.teamsData
              (sample.teamsStore
                 [sample.fullTeam; sample.brokenTeam; sample.fullTeam])
              (imap (fun i p => {| helper.ID := Z.of_nat i; helper.Data := p |})
                 [sample.fullTeam; sample.brokenTeam; sample.fullTeam])
              {| helper.ID := 1; helper.Data := sample.brokenTeam |}
              (ErrOther "json: malformed object"))
    as [_ Hreturns].
  - vm_compute. reflexivity.
  - apply list_elem_of_further, list_elem_of_here.
  - vm_compute. reflexivity.
  - destruct Hreturns as [e' He'].
    + repeat constructor; vm_compute; discriminate.
    + exists e'. split; [exact He' | vm_compute; reflexivity].
Defined.

(** *** The state commit of the worklog collector *)

(** With the flag computed by [IsIncremental], the [Query] closure always
    returns: the recorded start it dereferences is there whenever the flag
    is set. *)
Lemma Query_returns (data : tapd.TapdTaskData)
    (m : helper.ApiCollectorStateManager) (reqData : helper.RequestData) :
  exists query,
    tapd.Query data (helper.IsIncremental m) m reqData = Return (query, None).
Proof.
  unfold helper.IsIncremental.
  destruct (helper.OptIn m); rewrite ?andb_true_r, ?andb_false_r.
  - case_bool_decide as Hsome.
    + destruct Hsome as [l Hl].
      destruct (Query_incremental data m reqData l Hl) as (query & Hq & _).
      by exists query.
    + destruct (Query_not_incremental data m reqData) as (query & Hq & _).
      by exists query.
  - destruct (Query_not_incremental data m reqData) as (query & Hq & _).
    by exists query.
Qed.

Lemma collectPages_no_panic (args : helper.ApiCollectorArgs) (page : Z)
    (answers : list helper.PageFetch) (staged : list string) :
  (forall reqData, exists query, helper.Query args reqData = Return (query, None)) ->
  helper.collectPages args page answers staged ≠ Panicked.
Proof.
  intros Hquery. revert page staged.
  induction answers as [| answer answers IH]; intros page staged; simpl;
    [done |].
  destruct (Hquery {| helper.RequestData_Pager :=
                        {| helper.Page := page;
                           helper.Skip := (page - 1) * helper.PageSize args;
                           helper.Size := helper.PageSize args |} |})
    as [query ->].
  exec_simpl. destruct answer as [body | e]; [| done].
  destruct (helper.ResponseParser args body) as [items err].
  destruct (helper.pageSignal err); [| done | done].
  case_bool_decide; [done | apply IH].
Qed.

(** A fetch failure after full pages fails the page loop with that
    failure. *)
Lemma collectPages_fetch_failure (args : helper.ApiCollectorArgs)
    (before after : list helper.PageFetch) (e : error) (page : Z)
    (staged : list string) :
  (forall reqData, exists query, helper.Query args reqData = Return (query, None)) ->
  Forall
    (fun answer =>
       exists body items,
         answer = helper.Fetched body
         /\ helper.ResponseParser args body = (items, None)
         /\ helper.PageSize args <= Z.of_nat (length items)) before ->
  helper.collectPages args page (before ++ helper.FetchFailed e :: after) staged
  = Failed e.
Proof.
  intros Hquery Hbefore. revert page staged.
  induction Hbefore as [| answer before (body & items & -> & Hparse & Hfull) _ IH];
    intros page staged; simpl.
  - destruct (Hquery {| helper.RequestData_Pager :=
                          {| helper.Page := page;
                             helper.Skip := (page - 1) * helper.PageSize args;
                             helper.Size := helper.PageSize args |} |})
      as [query ->].
    done.
  - destruct (Hquery {| helper.RequestData_Pager :=
                          {| helper.Page := page;
                             helper.Skip := (page - 1) * helper.PageSize args;
                             helper.Size := helper.PageSize args |} |})
      as [query ->].
    exec_simpl. rewrite Hparse. simpl.
    rewrite bool_decide_eq_false_2 by lia. apply IH.
Qed.

Section WorklogCollector.

Variable CreateRawDataSubTaskArgs :
  tapd.TapdTaskData -> string -> bool ->
  helper.RawDataSubTaskArgs * tapd.TapdTaskData.
Variable GetRawMessageArrayFromResponse : string -> list string * option error.

Local Abbreviation CollectWorklogs :=
  (tapd.CollectWorklogs CreateRawDataSubTaskArgs GetRawMessageArrayFromResponse).

(** C5.  The subtask always returns.  When it returns an error, the state
    tracker's table is as before the run; when it returns none, the entry
    of the run's identity holds the run's start time and nothing else has
    changed.  In particular a page that cannot be fetched, coming after
    full pages, fails the run with its error and leaves the table alone. *)
Theorem CollectWorklogs_commits_only_on_success (taskCtx : tapd.TapdTaskData)
    (env : helper.CollectorEnv) :
  (exists err states' staged,
     CollectWorklogs taskCtx env = Return (err, states', staged)
     /\ (is_Some err -> states' = helper.states env)
     /\ (err = None ->
         states'
         = <[helper.identity
               (CreateRawDataSubTaskArgs taskCtx tapd.RAW_WORKLOG_TABLE false).1 :=
               {| helper.LatestSuccessStart := Some (helper.now env) |}]>
             (helper.states env)))
  /\ (forall before after e,
        helper.loadError env = None ->
        helper.initError env = None ->
        helper.answers env = before ++ helper.FetchFailed e :: after ->
        Forall
          (fun answer =>
             exists body items,
               answer = helper.Fetched body
               /\ GetRawMessageArrayFromResponse body = (items, None)
               /\ 100 <= Z.of_nat (length items)) before ->
        CollectWorklogs taskCtx env = Return (Some e, helper.states env, [])).
Proof.
  unfold tapd.CollectWorklogs.
  destruct (CreateRawDataSubTaskArgs taskCtx tapd.RAW_WORKLOG_TABLE false)
    as [rawDataSubTaskArgs data].
  unfold helper.NewApiCollectorWithState. simpl.
  set (m := {| helper.Args := rawDataSubTaskArgs;
               helper.LatestState := _;
               helper.CreatedDateAfter := _;
               helper.ExecuteStart := _;
               helper.OptIn := _ |}).
  set (args := {| helper.Incremental := _;
                  helper.PageSize := 100;
                  helper.UrlTemplate := _;
                  helper.Query := _;
                  helper.ResponseParser := _ |}).
  assert (Hquery : forall reqData,
    exists query, helper.Query args reqData = Return (query, None))
    by (intros reqData; apply Query_returns).
  split.
  - destruct (helper.loadError env) as [e |].
    { exists (Some e), (helper.states env), []. by repeat split. }
    destruct (helper.initError env) as [e |].
    { exists (Some e), (helper.states env), []. by repeat split. }
    unfold helper.Execute.
    pose proof (collectPages_no_panic args 1 (helper.answers env) [] Hquery)
      as Hpanic.
    destruct (helper.collectPages args 1 (helper.answers env) [])
      as [| e | staged]; [done | |].
    { exists (Some e), (helper.states env), []. by repeat split. }
    destruct (helper.commitError env) as [e |].
    { exists (Some e), (helper.states env), staged. by repeat split. }
    eexists None, _, staged. split; [reflexivity |].
    split; [by intros [? ?] | done].
  - intros before after e -> -> Hanswers Hbefore.
    unfold helper.Execute. rewrite Hanswers.
    by rewrite (collectPages_fetch_failure args before after e 1 [] Hquery Hbefore).
Qed.

End WorklogCollector.

(** C5 on a run whose second page cannot be fetched: the recorded start
    of the identity is the one from before the run. *)
Lemma CollectWorklogs_commits_only_on_success_witness :
  tapd.CollectWorklogs sample.createRawDataSubTaskArgs sample.linesOfResponse
    sample.tapdData sample.failingRun
  = Return (Some (ErrOther "connection reset"),
            helper.states sample.failingRun, [])
  /\ helper.states sample.failingRun !! ("tapd_api_worklogs", "7")
     = Some {| helper.LatestSuccessStart := Some 1600000000 |}.
Proof.
  split; [| vm_compute; reflexivity].
  destruct (CollectWorklogs_commits_only_on_success
              sample.createRawDataSubTaskArgs sample.linesOfResponse
              sample.tapdData sample.failingRun) as [_ Hfailure].
  apply (Hfailure
           [helper.Fetched (String.concat (String "010" "") (replicate 100 "{}"))]
           []).
  - reflexivity.
  - reflexivity.
  - reflexivity.
  - repeat constructor. eexists _, _. split; [reflexivity |].
    split; [vm_compute; reflexivity |]. vm_compute. discriminate.
Defined.

(** On the run with a short second page the subtask succeeds and records
    the run's start. *)
Example CollectWorklogs_success_commits_start :
  exists states' staged,
    tapd.CollectWorklogs sample.createRawDataSubTaskArgs sample.linesOfResponse
      sample.tapdData sample.succeedingRun = Return (None, states', staged)
    /\ states' !! ("tapd_api_worklogs", "7")
       = Some {| helper.LatestSuccessStart := Some 1800000000 |}
    /\ length staged = 101%nat.
Proof.
  eexists _, _. split; [vm_compute; reflexivity |].
  split; vm_compute; reflexivity.
Qed.

(** The extraction of three well-formed payloads replaces the identity's
    typed output. *)
Example ExtractTeams_success_replaces :
  exists store',
    sample.extractTeams [sample.fullTeam; sample.fullTeam; sample.fullTeam]
    = Return (None, store')
    /\ length <$> (helper.typedRecords store' !! sample.teamsIdentity)
       = Some 3%nat.
Proof.
  eexists. split; [vm_compute; reflexivity |]. vm_compute. reflexivity.
Qed.

(** ** Further properties of the subtasks *)

(** *** The request of the worklog collector *)

(** The [Query] closure never returns an error, and it panics exactly when
    it is told to run incrementally without a recorded start. *)
Theorem Query_panics_only_without_recorded_start (data : tapd.TapdTaskData)
    (incremental : bool) (m : helper.ApiCollectorStateManager)
    (reqData : helper.RequestData) :
  (tapd.Query data incremental m reqData = Panic
   <-> incremental = true
       /\ helper.LatestSuccessStart (helper.LatestState m) = None)
  /\ (forall query err,
        tapd.Query data incremental m reqData = Return (query, err) ->
        err = None).
Proof.
  unfold tapd.Query.
  destruct incremental,
    (helper.LatestSuccessStart (helper.LatestState m)) as [l |].
  - split; [split; [done | by intros [_ ?]] | by intros query err [= _ <-]].
  - split; [by split | done].
  - split; [split; [done | by intros [? _]] | by intros query err [= _ <-]].
  - split; [split; [done | by intros [? _]] | by intros query err [= _ <-]].
Qed.

(** Whatever the filter, a request carries the workspace, the page, the
    page size and the ascending order by creation time, and no parameter
    besides these and [created]; it carries [created] exactly when the run
    is incremental or the caller gave a cutoff. *)
Theorem Query_paging_parameters (data : tapd.TapdTaskData)
    (incremental : bool) (m : helper.ApiCollectorStateManager)
    (reqData : helper.RequestData) (query : gmap string (list string))
    (err : option error) :
  tapd.Query data incremental m reqData = Return (query, err) ->
  query !! "workspace_id"
    = Some [Sprintf_v (tapd.WorkspaceId (tapd.Options data))]
  /\ query !! "page"
     = Some [Sprintf_v (helper.Page (helper.RequestData_Pager reqData))]
  /\ query !! "limit"
     = Some [Sprintf_v (helper.Size (helper.RequestData_Pager reqData))]
  /\ query !! "order" = Some ["created asc"]
  /\ dom query ⊆ {[ "workspace_id"; "page"; "limit"; "order"; "created" ]}
  /\ (is_Some (query !! "created")
      <-> incremental = true \/ is_Some (tapd.CreatedDateAfter data)).
Proof.
  unfold tapd.Query, Values_Set.
  destruct incremental,
    (helper.LatestSuccessStart (helper.LatestState m)) as [l |],
    (tapd.CreatedDateAfter data) as [c |]; try done;
    intros Hq; injection Hq as <- <-;
    (split; [by repeat (rewrite lookup_insert_ne by done);
                rewrite lookup_insert_eq |]);
    (split; [by repeat (rewrite lookup_insert_ne by done);
                rewrite lookup_insert_eq |]);
    (split; [by repeat (rewrite lookup_insert_ne by done);
                rewrite lookup_insert_eq |]);
    (split; [by repeat (rewrite lookup_insert_ne by done);
                rewrite lookup_insert_eq |]);
    (split; [rewrite !dom_insert_L, dom_empty_L; intros k;
             rewrite !elem_of_union, !elem_of_singleton, elem_of_empty; tauto |]).
  - rewrite lookup_insert_eq. split; [by left | by eexists].
  - rewrite lookup_insert_eq. split; [by left | by eexists].
  - rewrite lookup_insert_eq. split; [intros _; right; by eexists | by eexists].
  - repeat (rewrite lookup_insert_ne by done). rewrite lookup_empty.
    split; [by intros [? ?] | by intros [? | [? ?]]].
  - rewrite lookup_insert_eq. split; [intros _; right; by eexists | by eexists].
  - repeat (rewrite lookup_insert_ne by done). rewrite lookup_empty.
    split; [by intros [? ?] | by intros [? | [? ?]]].
Qed.

(** On the sample task in incremental mode. *)
Lemma Query_paging_parameters_witness :
  exists query,
    tapd.Query sample.tapdData true sample.tapdManager sample.firstPage
      = Return (query, None)
    /\ query !! "workspace_id" = Some ["7"]
    /\ query !! "page" = Some ["1"]
    /\ query !! "limit" = Some ["100"]
    /\ query !! "order" = Some ["created asc"]
    /\ size query = 5%nat.
Proof.
  eexists. split; [vm_compute; reflexivity |].
  destruct (Query_paging_parameters sample.tapdData true sample.tapdManager
              sample.firstPage _ None eq_refl)
    as (Hws & Hpage & Hlimit & Horder & _).
  split; [exact Hws |]. split; [exact Hpage |]. split; [exact Hlimit |].
  split; [exact Horder |]. vm_compute. reflexivity.
Defined.

(** Only the calendar day of a cutoff, in the task's time zone, reaches
    the request: two tasks that differ in the time of day of the caller's
    cutoff or of the recorded start build the same requests. *)
Theorem Query_filter_has_day_granularity (data data' : tapd.TapdTaskData)
    (incremental : bool) (m m' : helper.ApiCollectorStateManager)
    (reqData : helper.RequestData) :
  tapd.Options data = tapd.Options data' ->
  (fun t => (t + offset (tapd.CstZone (tapd.Options data))) / 86400)
    <$> tapd.CreatedDateAfter data
  = (fun t => (t + offset (tapd.CstZone (tapd.Options data))) / 86400)
      <$> tapd.CreatedDateAfter data' ->
  (fun t => (t + offset (tapd.CstZone (tapd.Options data))) / 86400)
    <$> helper.LatestSuccessStart (helper.LatestState m)
  = (fun t => (t + offset (tapd.CstZone (tapd.Options data))) / 86400)
      <$> helper.LatestSuccessStart (helper.LatestState m') ->
  tapd.Query data incremental m reqData
  = tapd.Query data' incremental m' reqData.
Proof.
  intros Hopt Hc Hl. unfold tapd.Query, tapd.createdAfter, Format_date.
  rewrite <- Hopt.
  destruct (tapd.CreatedDateAfter data) as [c |],
    (tapd.CreatedDateAfter data') as [c' |]; try done;
    destruct (helper.LatestSuccessStart (helper.LatestState m)) as [l |],
      (helper.LatestSuccessStart (helper.LatestState m')) as [l' |];
    try done; simpl in Hc, Hl;
    try (injection Hc as Hc; rewrite Hc);
    try (injection Hl as Hl; rewrite Hl); done.
Qed.

(** Two cutoffs on 2023-11-15 in China Standard Time, eight hours apart. *)
Lemma Query_filter_has_day_granularity_witness :
  tapd.Query sample.tapdData true sample.tapdManager sample.firstPage
  = tapd.Query
      {| tapd.Options := tapd.Options sample.tapdData;
         tapd.CreatedDateAfter := Some 1700028800 |}
      true sample.tapdManager sample.firstPage.
Proof.
  apply Query_filter_has_day_granularity; [reflexivity | | reflexivity].
  vm_compute. reflexivity.
Defined.

(** *** What the response parser makes of each record *)

Lemma set_Type_set_Component (ty ty' comp comp' : string)
    (p : github_graphql.GithubPullRequest.t) :
  github_graphql.GithubPullRequest.set_Type ty
    (github_graphql.GithubPullRequest.set_Component comp
       (github_graphql.GithubPullRequest.set_Component comp'
          (github_graphql.GithubPullRequest.set_Type ty' p)))
  = github_graphql.GithubPullRequest.set_Type ty
      (github_graphql.GithubPullRequest.set_Component comp p).
Proof. by destruct p. Qed.

Lemma set_Type_Component_same (p : github_graphql.GithubPullRequest.t) :
  github_graphql.GithubPullRequest.set_Type
    (github_graphql.GithubPullRequest.Type_ p)
    (github_graphql.GithubPullRequest.set_Component
       (github_graphql.GithubPullRequest.Component p) p) = p.
Proof. by destruct p. Qed.

(** What one label regexp does to the pull request, when it does not
    panic. *)
Lemma applyLabelRegex_Type (re : option github_graphql.Regexp) (name : string)
    (p p' : github_graphql.GithubPullRequest.t) :
  github_graphql.applyLabelRegex re name
    github_graphql.GithubPullRequest.set_Type p = Done p' ->
  p' = github_graphql.GithubPullRequest.set_Type
         (capture re name (github_graphql.GithubPullRequest.Type_ p)) p.
Proof.
  unfold github_graphql.applyLabelRegex, capture.
  destruct re as [find |]; [| intros [= <-]; by destruct p].
  destruct (find name) as [| whole [| group groups]]; simpl.
  - intros [= <-]. by destruct p.
  - done.
  - by intros [= <-].
Qed.

Lemma applyLabelRegex_Component (re : option github_graphql.Regexp)
    (name : string) (p p' : github_graphql.GithubPullRequest.t) :
  github_graphql.applyLabelRegex re name
    github_graphql.GithubPullRequest.set_Component p = Done p' ->
  p' = github_graphql.GithubPullRequest.set_Component
         (capture re name (github_graphql.GithubPullRequest.Component p)) p.
Proof.
  unfold github_graphql.applyLabelRegex, capture.
  destruct re as [find |]; [| intros [= <-]; by destruct p].
  destruct (find name) as [| whole [| group groups]]; simpl.
  - intros [= <-]. by destruct p.
  - done.
  - by intros [= <-].
Qed.

(** A label regexp never fails; it panics exactly on a match without a
    capture group. *)
Lemma applyLabelRegex_outcome (re : option github_graphql.Regexp) (name : string)
    (set : string -> github_graphql.GithubPullRequest.t ->
           github_graphql.GithubPullRequest.t)
    (p : github_graphql.GithubPullRequest.t) :
  (exists p', github_graphql.applyLabelRegex re name set p = Done p'
              /\ forall find, re = Some find -> length (find name) ≠ 1%nat)
  \/ (github_graphql.applyLabelRegex re name set p = Panicked
      /\ exists find, re = Some find /\ length (find name) = 1%nat).
Proof.
  unfold github_graphql.applyLabelRegex.
  destruct re as [find |]; [| left; eexists; by split].
  destruct (find name) as [| whole [| group groups]] eqn:Hfind; simpl.
  - left. eexists. split; [done |]. intros ? [= <-]. by rewrite Hfind.
  - right. split; [done |]. exists find. by rewrite Hfind.
  - left. eexists. split; [done |]. intros ? [= <-]. by rewrite Hfind.
Qed.

Section PrRecordsOfParser.

Variable GithubAccount : Type.
Variable convertGraphqlPreAccount :
  github_graphql.GraphqlInlineAccountQuery.t -> Z -> Z ->
  GithubAccount * option error.
Variable data : github_graphql.GithubTaskData.t.
Variable labelTypeRegex : option github_graphql.Regexp.
Variable labelComponentRegex : option github_graphql.Regexp.

Local Abbreviation Entity := (github_graphql.Entity GithubAccount).
Local Abbreviation labelsLoop :=
  (github_graphql.labelsLoop GithubAccount data labelTypeRegex
     labelComponentRegex).
Local Abbreviation reviewBody :=
  (github_graphql.reviewBody GithubAccount convertGraphqlPreAccount data).
Local Abbreviation reviewsLoop :=
  (github_graphql.reviewsLoop GithubAccount convertGraphqlPreAccount data).
Local Abbreviation commitsLoop :=
  (github_graphql.commitsLoop GithubAccount convertGraphqlPreAccount data).
Local Abbreviation prBody :=
  (github_graphql.prBody GithubAccount convertGraphqlPreAccount data
     labelTypeRegex labelComponentRegex).
Local Abbreviation ResponseParser :=
  (github_graphql.ResponseParser GithubAccount convertGraphqlPreAccount data
     labelTypeRegex labelComponentRegex).
Local Abbreviation unitsOf :=
  (unitsOf GithubAccount convertGraphqlPreAccount data labelTypeRegex
     labelComponentRegex).
Local Abbreviation unitsOfAll :=
  (unitsOfAll GithubAccount convertGraphqlPreAccount data labelTypeRegex
     labelComponentRegex).
Local Abbreviation reached := (reached data).
Local Abbreviation account :=
  (accountOf GithubAccount convertGraphqlPreAccount data).

(** The pull request the loop body starts from. *)
Local Abbreviation converted rawL :=
  (github_graphql.convertGithubPullRequest rawL
     (github_graphql.ConnectionId data) (github_graphql.GithubId data)).1.

(** The label loop: one label record per label, and the captures of the
    last matching labels in the pull request. *)
Lemma labelsLoop_exact (labels : list github_graphql.LabelNode.t)
    (githubPr githubPr' : github_graphql.GithubPullRequest.t)
    (produced : list Entity) :
  labelsLoop labels [] githubPr = Done (produced, githubPr') ->
  produced
  = (fun label =>
       github_graphql.PrLabelOf
         {| github_graphql.GithubPrLabel.ConnectionId :=
              github_graphql.ConnectionId data;
            github_graphql.GithubPrLabel.PullId :=
              github_graphql.GithubPullRequest.GithubId githubPr;
            github_graphql.GithubPrLabel.LabelName :=
              github_graphql.LabelNode.Name label |}) <$> labels
  /\ githubPr'
     = github_graphql.GithubPullRequest.set_Type
         (lastCapture labelTypeRegex labels
            (github_graphql.GithubPullRequest.Type_ githubPr))
         (github_graphql.GithubPullRequest.set_Component
            (lastCapture labelComponentRegex labels
               (github_graphql.GithubPullRequest.Component githubPr))
            githubPr).
Proof.
  revert githubPr produced.
  induction labels as [| label labels IH]; intros githubPr produced; simpl.
  - intros [= <- <-]. split; [done |]. by rewrite set_Type_Component_same.
  - destruct (github_graphql.applyLabelRegex labelTypeRegex _ _ githubPr)
      as [| e | pr1] eqn:H1; exec_simpl; try done.
    destruct (github_graphql.applyLabelRegex labelComponentRegex _ _ pr1)
      as [| e | pr2] eqn:H2; exec_simpl; try done.
    rewrite labelsLoop_after.
    destruct (labelsLoop labels [] pr2) as [| e | [rest pr3]] eqn:H3; simpl;
      try done.
    intros [= <- <-].
    destruct (IH _ _ H3) as (-> & ->).
    apply applyLabelRegex_Type in H1. apply applyLabelRegex_Component in H2.
    subst pr2 pr1. split.
    + by destruct githubPr.
    + unfold lastCapture. simpl. destruct githubPr. simpl. done.
Qed.

(** The review loop produces accounts, reviewers and reviews only; its
    accounts are those of the authors of the reviews that are not
    pending. *)
Lemma reviewsLoop_accounts (reviews : list github_graphql.GraphqlQueryReview.t)
    (githubPr : github_graphql.GithubPullRequest.t) (produced : list Entity) :
  reviewsLoop reviews [] githubPr = Done produced ->
  Forall (fun e => fromReview e = true) produced
  /\ accountsIn produced
     = account <$>
         omap github_graphql.GraphqlQueryReview.Author
           (filter
              (fun rv => github_graphql.GraphqlQueryReview.State rv ≠ "PENDING")
              reviews).
Proof.
  revert produced.
  induction reviews as [| rv reviews IH]; intros produced; simpl.
  - intros [= <-]. by split.
  - rewrite filter_cons. case_bool_decide as Hstate.
    + rewrite decide_True by done.
      destruct (reviewBody rv [] githubPr) as [| e | mine] eqn:Hmine;
        exec_simpl; try done.
      rewrite reviewsLoop_appended.
      destruct (reviewsLoop reviews [] githubPr) as [| e | rest] eqn:Hrest;
        simpl; try done.
      intros [= <-]. destruct (IH _ eq_refl) as (Hshape & Hacc).
      unfold accountsIn in *. rewrite omap_app, Hacc.
      unfold github_graphql.reviewBody in Hmine.
      destruct (github_graphql.GraphqlQueryReview.Author rv) as [author |]
        eqn:Hauthor.
      * unfold accountOf.
        destruct (convertGraphqlPreAccount author _ _) as [user [e |]] eqn:Hc;
          exec_simpl; [done |].
        injection Hmine as <-. split.
        -- by repeat constructor.
        -- simpl. by rewrite Hc.
      * injection Hmine as <-. split; [by repeat constructor | done].
    + rewrite decide_False by (intros H; exact (H Hstate)).
      apply IH.
Qed.

(** The commit loop produces, commit by commit, the commit record, the
    link record and the account of the author's user if there is one. *)
Lemma commitsLoop_exact (commits : list github_graphql.GraphqlQueryCommit.t)
    (githubPr : github_graphql.GithubPullRequest.t) (produced : list Entity) :
  commitsLoop commits [] githubPr = Done produced ->
  Forall (fun e => fromCommit e = true) produced
  /\ commitsIn produced
     = (fun c => (github_graphql.convertPullRequestCommit c).1) <$> commits
  /\ prCommitsIn produced
     = (fun c =>
          {| github_graphql.GithubPrCommit.ConnectionId :=
               github_graphql.ConnectionId data;
             github_graphql.GithubPrCommit.CommitSha :=
               github_graphql.GraphqlQueryCommit.Commit_Oid c;
             github_graphql.GithubPrCommit.PullRequestId :=
               github_graphql.GithubPullRequest.GithubId githubPr |})
         <$> commits
  /\ accountsIn produced
     = account <$>
         omap github_graphql.GraphqlQueryCommit.Commit_Author_User commits.
Proof.
  revert produced.
  induction commits as [| c commits IH]; intros produced.
  - intros [= <-]. by repeat split.
  - cbn [github_graphql.commitsLoop].
    rewrite check_convertPullRequestCommit.
    unfold mbind, Exec_bind, bind.
    destruct (github_graphql.GraphqlQueryCommit.Commit_Author_User c)
      as [user |] eqn:Huser.
    + unfold accountOf.
      destruct (convertGraphqlPreAccount user _ _) as [githubUser [e |]] eqn:Hc;
        unfold check; [done |].
      rewrite commitsLoop_appended.
      destruct (commitsLoop commits [] githubPr) as [| e | rest] eqn:Hrest;
        simpl; try done.
      intros [= <-]. destruct (IH _ eq_refl) as (Hshape & Hco & Hpc & Hacc).
      split; [by repeat constructor |].
      split; [apply (f_equal2 cons); [reflexivity | exact Hco] |].
      split; [apply (f_equal2 cons); [reflexivity | exact Hpc] |].
      cbn [omap list_omap]. rewrite Huser. cbn [fmap list_fmap].
      apply (f_equal2 cons); [by rewrite Hc | exact Hacc].
    + rewrite commitsLoop_appended.
      destruct (commitsLoop commits [] githubPr) as [| e | rest] eqn:Hrest;
        simpl; try done.
      intros [= <-]. destruct (IH _ eq_refl) as (Hshape & Hco & Hpc & Hacc).
      split; [by repeat constructor |].
      split; [apply (f_equal2 cons); [reflexivity | exact Hco] |].
      split; [apply (f_equal2 cons); [reflexivity | exact Hpc] |].
      cbn [omap list_omap]. rewrite Huser. exact Hacc.
Qed.

(** The pull request record of a page record: the conversion, with the
    captures of the last matching labels as type and component. *)
Local Abbreviation labelled rawL :=
  (github_graphql.GithubPullRequest.set_Type
     (lastCapture labelTypeRegex
        (github_graphql.GraphqlQueryPr.Labels_Nodes rawL) "")
     (github_graphql.GithubPullRequest.set_Component
        (lastCapture labelComponentRegex
           (github_graphql.GraphqlQueryPr.Labels_Nodes rawL) "")
        (converted rawL))).

(** What one record contributes, part by part. *)
Lemma unitsOf_parts (rawL : github_graphql.GraphqlQueryPr.t) (u : list Entity) :
  unitsOf rawL = Done u ->
  exists reviews commits,
    reviewsLoop (github_graphql.GraphqlQueryPr.Reviews_Nodes rawL) []
      (labelled rawL) = Done reviews
    /\ commitsLoop (github_graphql.GraphqlQueryPr.Commits_Nodes rawL) []
         (labelled rawL) = Done commits
    /\ u = ((fun a => github_graphql.AccountOf (account a))
              <$> option_list (github_graphql.GraphqlQueryPr.Author rawL))
           ++ ((fun l => github_graphql.PrLabelOf (labelRecord data rawL l))
                 <$> github_graphql.GraphqlQueryPr.Labels_Nodes rawL)
           ++ [github_graphql.PullRequestOf (labelled rawL)]
           ++ reviews ++ commits.
Proof.
  unfold unitsOf, github_graphql.prBody.
  rewrite check_convertGithubPullRequest.
  set (pr0 := converted rawL).
  unfold mbind, Exec_bind, bind.
  assert (Hgoal : forall accounts,
    match labelsLoop (github_graphql.GraphqlQueryPr.Labels_Nodes rawL)
            accounts pr0 with
    | Panicked => Panicked
    | Failed e => Failed e
    | Done (results, githubPr) =>
        match reviewsLoop (github_graphql.GraphqlQueryPr.Reviews_Nodes rawL)
                (results ++ [github_graphql.PullRequestOf githubPr]) githubPr with
        | Panicked => Panicked
        | Failed e => Failed e
        | Done a =>
            commitsLoop (github_graphql.GraphqlQueryPr.Commits_Nodes rawL) a
              githubPr
        end
    end = Done u ->
    exists reviews commits,
      reviewsLoop (github_graphql.GraphqlQueryPr.Reviews_Nodes rawL) []
        (labelled rawL) = Done reviews
      /\ commitsLoop (github_graphql.GraphqlQueryPr.Commits_Nodes rawL) []
           (labelled rawL) = Done commits
      /\ u = accounts
             ++ ((fun l => github_graphql.PrLabelOf (labelRecord data rawL l))
                   <$> github_graphql.GraphqlQueryPr.Labels_Nodes rawL)
             ++ [github_graphql.PullRequestOf (labelled rawL)]
             ++ reviews ++ commits).
  { intros accounts. rewrite labelsLoop_after.
    destruct (labelsLoop _ [] pr0) as [| e | [labels githubPr]] eqn:Hlab;
      simpl; try done.
    apply labelsLoop_exact in Hlab as [-> ->].
    change (github_graphql.GithubPullRequest.Type_ pr0) with "".
    change (github_graphql.GithubPullRequest.Component pr0) with "".
    rewrite reviewsLoop_appended.
    destruct (reviewsLoop _ [] _) as [| e | reviews] eqn:Hrev; simpl;
      try done.
    rewrite commitsLoop_appended.
    destruct (commitsLoop _ [] _) as [| e | commits] eqn:Hcom; simpl;
      try done.
    intros [= <-]. exists reviews, commits.
    split; [done |]. split; [done |]. by rewrite <- !app_assoc. }
  destruct (github_graphql.GraphqlQueryPr.Author rawL) as [author |].
  - unfold accountOf.
    destruct (convertGraphqlPreAccount author (github_graphql.GithubId data)
                (github_graphql.ConnectionId data))
      as [githubUser [e |]] eqn:Hconv; unfold check; [done |].
    intros Hu.
    destruct (Hgoal _ Hu) as (reviews & commits & Hrev & Hcom & ->).
    exists reviews, commits. split; [done |]. split; [done |].
    simpl. by rewrite Hconv.
  - apply (Hgoal []).
Qed.

(** Projections of the parts. *)
Lemma accounts_part (users : list github_graphql.GraphqlInlineAccountQuery.t) :
  accountsIn ((fun a => github_graphql.AccountOf (account a)) <$> users)
  = account <$> users
  /\ @labelsIn GithubAccount
       ((fun a => github_graphql.AccountOf (account a)) <$> users) = []
  /\ @commitsIn GithubAccount
       ((fun a => github_graphql.AccountOf (account a)) <$> users) = []
  /\ @prCommitsIn GithubAccount
       ((fun a => github_graphql.AccountOf (account a)) <$> users) = []
  /\ @pullRequestsIn GithubAccount
       ((fun a => github_graphql.AccountOf (account a)) <$> users) = [].
Proof.
  induction users as [| a users (IH1 & IH2 & IH3 & IH4 & IH5)]; [done |].
  repeat split; [| done..].
  unfold accountsIn in *. cbn. by rewrite <- IH1.
Qed.

Lemma labels_part (f : github_graphql.LabelNode.t -> github_graphql.GithubPrLabel.t)
    (labels : list github_graphql.LabelNode.t) :
  @labelsIn GithubAccount ((fun l => github_graphql.PrLabelOf (f l)) <$> labels)
  = f <$> labels
  /\ @accountsIn GithubAccount
       ((fun l => github_graphql.PrLabelOf (f l)) <$> labels) = []
  /\ @commitsIn GithubAccount
       ((fun l => github_graphql.PrLabelOf (f l)) <$> labels) = []
  /\ @prCommitsIn GithubAccount
       ((fun l => github_graphql.PrLabelOf (f l)) <$> labels) = []
  /\ @pullRequestsIn GithubAccount
       ((fun l => github_graphql.PrLabelOf (f l)) <$> labels) = [].
Proof.
  induction labels as [| l labels (IH1 & IH2 & IH3 & IH4 & IH5)]; [done |].
  repeat split; [| done..].
  unfold labelsIn in *. cbn. by rewrite <- IH1.
Qed.

Lemma reviews_part (results : list Entity) :
  Forall (fun e => fromReview e = true) results ->
  labelsIn results = [] /\ commitsIn results = [] /\ prCommitsIn results = [].
Proof.
  induction 1 as [| e results He _ (IH1 & IH2 & IH3)]; [done |].
  by destruct e.
Qed.

Lemma commits_part (results : list Entity) :
  Forall (fun e => fromCommit e = true) results -> labelsIn results = [].
Proof.
  induction 1 as [| e results He _ IH]; [done |]. by destruct e.
Qed.

(** What one record produces, kind by kind. *)
Lemma unitsOf_records (rawL : github_graphql.GraphqlQueryPr.t) (u : list Entity) :
  unitsOf rawL = Done u ->
  labelsIn u
  = labelRecord data rawL <$> github_graphql.GraphqlQueryPr.Labels_Nodes rawL
  /\ commitsIn u
     = (fun c => (github_graphql.convertPullRequestCommit c).1)
         <$> github_graphql.GraphqlQueryPr.Commits_Nodes rawL
  /\ prCommitsIn u
     = prCommitRecord data rawL
         <$> github_graphql.GraphqlQueryPr.Commits_Nodes rawL
  /\ accountsIn u = account <$> usersOf rawL
  /\ pullRequestsIn u = [labelled rawL].
Proof.
  intros Hu.
  destruct (unitsOf_parts rawL u Hu) as (reviews & commits & Hrev & Hcom & ->).
  destruct (accounts_part
              (option_list (github_graphql.GraphqlQueryPr.Author rawL)))
    as (Ha1 & Ha2 & Ha3 & Ha4 & Ha5).
  destruct (labels_part (labelRecord data rawL)
              (github_graphql.GraphqlQueryPr.Labels_Nodes rawL))
    as (Hl1 & Hl2 & Hl3 & Hl4 & Hl5).
  destruct (reviewsLoop_accounts _ _ _ Hrev) as (Hrshape & Hr1).
  destruct (reviews_part _ Hrshape) as (Hr2 & Hr3 & Hr4).
  destruct (reviewsLoop_Done GithubAccount convertGraphqlPreAccount data
              rawL _ (labelled rawL) _ eq_refl Hrev) as (Hr5 & _ & _).
  destruct (commitsLoop_exact _ _ _ Hcom) as (Hcshape & Hc1 & Hc2 & Hc3).
  pose proof (commits_part _ Hcshape) as Hc4.
  destruct (commitsLoop_Done GithubAccount convertGraphqlPreAccount data
              _ _ _ Hcom) as (Hc5 & _ & _).
  unfold labelsIn, commitsIn, prCommitsIn, accountsIn, pullRequestsIn in *.
  rewrite !omap_app.
  rewrite Ha1, Ha2, Ha3, Ha4, Ha5, Hl1, Hl2, Hl3, Hl4, Hl5, Hr1, Hr2, Hr3, Hr4,
    Hr5, Hc1, Hc2, Hc3, Hc4, Hc5.
  unfold usersOf. rewrite !fmap_app. simpl. rewrite ?app_nil_r.
  repeat split.
Qed.

Lemma unitsOfAll_records (prs : list github_graphql.GraphqlQueryPr.t)
    (us : list (list Entity)) :
  Forall2 (fun rawL u => unitsOf rawL = Done u) prs us ->
  labelsIn (concat us)
  = concat
      ((fun rawL =>
          labelRecord data rawL
            <$> github_graphql.GraphqlQueryPr.Labels_Nodes rawL) <$> prs)
  /\ commitsIn (concat us)
     = concat
         ((fun rawL =>
             (fun c => (github_graphql.convertPullRequestCommit c).1)
               <$> github_graphql.GraphqlQueryPr.Commits_Nodes rawL) <$> prs)
  /\ prCommitsIn (concat us)
     = concat
         ((fun rawL =>
             prCommitRecord data rawL
               <$> github_graphql.GraphqlQueryPr.Commits_Nodes rawL) <$> prs)
  /\ accountsIn (concat us)
     = concat ((fun rawL => account <$> usersOf rawL) <$> prs)
  /\ pullRequestsIn (concat us) = (fun rawL => labelled rawL) <$> prs.
Proof.
  induction 1 as [| rawL u prs us Hu _ (IH1 & IH2 & IH3 & IH4 & IH5)]; [done |].
  destruct (unitsOf_records rawL u Hu) as (H1 & H2 & H3 & H4 & H5).
  unfold labelsIn, commitsIn, prCommitsIn, accountsIn, pullRequestsIn in *.
  simpl. rewrite !omap_app.
  rewrite H1, H2, H3, H4, H5, IH1, IH2, IH3, IH4, IH5. done.
Qed.

End PrRecordsOfParser.
